(** * Editing-Scripts: the silence-trimming pipeline of [Silence.py]

    A shallow embedding of [Python Scripts/Silence.py].  Times are Python
    floats, that is IEEE 754 binary64 numbers; they are modelled by the
    Standard Library's executable specification [spec_float] at precision
    53 and maximal exponent 1024, so that subtraction rounds and comparison
    treats NaN exactly as the interpreter does.  Strings are sequences of
    code points below 256.  The external programs (ffmpeg, ffprobe) are an
    oracle of the environment; what the script prints, starts and writes is
    recorded in a trace. *)

From Stdlib Require Import ZArith SpecFloat.
From Stdlib Require Import Ascii String DecimalString.
From stdpp Require Import base list strings sorting gmap.

Local Open Scope Z_scope.

(** ** Python floats *)

Module Float64.

Definition prec : Z := 53.
Definition emax : Z := 1024.

Definition float : Type := spec_float.

Definition sub (x y : float) : float := SFsub prec emax x y.
Definition ltb (x y : float) : bool := SFltb x y.
Definition leb (x y : float) : bool := SFleb x y.
(** Python evaluates [x > y] as [y < x], false as soon as one side is NaN. *)
Definition gtb (x y : float) : bool := SFltb y x.

(** The integer [n] as a float (exact below 2^53, rounded to nearest even
    above). *)
Definition of_Z (n : Z) : float := binary_normalize prec emax n 0 false.

(** [(-1)^neg * n * 10^e10] for a natural number [n], rounded to the nearest
    float, ties to even: the value of a decimal numeral, as the interpreter
    computes it for a literal and as [float] computes it for a string.  The
    quotient is taken on the exact integers, so there is one rounding only. *)
Definition of_scientific (neg : bool) (n : Z) (e10 : Z) : float :=
  match n with
  | Zpos p =>
      let num := if 0 <=? e10 then Pos.mul p (Z.to_pos (10 ^ e10)) else p in
      let den := if 0 <=? e10 then 1%positive else Z.to_pos (10 ^ (- e10)) in
      SFdiv prec emax (S754_finite neg num 0) (S754_finite false den 0)
  | _ => S754_zero neg
  end.

(** The decimal [n / 10^k]: [of_decimal 1 1] is the literal [0.1],
    [of_decimal 205 2] is [2.05]. *)
Definition of_decimal (n : Z) (k : nat) : float :=
  of_scientific false n (- Z.of_nat k).

Definition zero : float := S754_zero false.

End Float64.

Declare Scope float64_scope.
Delimit Scope float64_scope with f64.
Bind Scope float64_scope with Float64.float.

Notation "x - y" := (Float64.sub x y) : float64_scope.
Notation "x <? y" := (Float64.ltb x y) : float64_scope.
Notation "x <=? y" := (Float64.leb x y) : float64_scope.
Notation "x >? y" := (Float64.gtb x y) : float64_scope.
Notation "x < y" := (Float64.ltb x y = true) : float64_scope.
Notation "x <= y" := (Float64.leb x y = true) : float64_scope.
Notation "x > y" := (Float64.gtb x y = true) : float64_scope.

(** ** The interval inverter *)

Definition interval : Type := Float64.float * Float64.float.

Section Inverter.
Import Float64.
Local Open Scope float64_scope.

(** The [for] loop of [compute_nonsilent_intervals]: the state is the list
    [intervals] built so far and [prev_end]. *)
Fixpoint sweep (silence_intervals : list interval) (min_gap : float)
    (intervals : list interval) (prev_end : float)
    : list interval * float :=
  match silence_intervals with
  | [] => (intervals, prev_end)
  | (start, end_) :: rest =>
      let intervals :=
        if start - prev_end >? min_gap
        then intervals ++ [(prev_end, start)]
        else intervals in
      sweep rest min_gap intervals end_
  end.

Definition compute_nonsilent_intervals (silence_intervals : list interval)
    (video_duration min_gap : float) : list interval :=
  let '(intervals, prev_end) := sweep silence_intervals min_gap [] zero in
  if video_duration - prev_end >? min_gap
  then intervals ++ [(prev_end, video_duration)]
  else intervals.

(** The default of the [min_gap] parameter, the literal [0.1]. *)
Definition default_min_gap : float := of_decimal 1 1.

(** The same sweep written by recursion on the report, from the loop state
    [prev_end] on: the span emitted for the head interval, if any, followed by
    those of the rest.  [compute_nonsilent_intervals_from] below relates it to
    the loop. *)
Fixpoint nonsilent_from (silence_intervals : list interval)
    (video_duration min_gap prev_end : float) : list interval :=
  match silence_intervals with
  | [] =>
      if video_duration - prev_end >? min_gap
      then [(prev_end, video_duration)] else []
  | (start, end_) :: rest =>
      (if start - prev_end >? min_gap then [(prev_end, start)] else [])
      ++ nonsilent_from rest video_duration min_gap end_
  end.

(** *** Valid silence reports

    A [TimeInterval] has [0 <= start < end]; a report is sorted by start,
    its intervals do not overlap and lie within [[0, total_duration]]. *)
Definition well_formed (total_duration : float) (i : interval) : bool :=
  (zero <=? i.1) && (i.1 <? i.2) && (i.2 <=? total_duration).

Fixpoint adjacent (R : interval -> interval -> bool) (l : list interval) : bool :=
  match l with
  | a :: ((b :: _) as r) => R a b && adjacent R r
  | _ => true
  end.

Definition sorted_by_start : list interval -> bool :=
  adjacent (fun a b => a.1 <=? b.1).

Definition non_overlapping : list interval -> bool :=
  adjacent (fun a b => a.2 <=? b.1).

Definition valid_report (silence : list interval) (total_duration : float) : bool :=
  forallb (well_formed total_duration) silence
  && sorted_by_start silence && non_overlapping silence.

(** The report seen from the loop: every start is at or after the previous
    end, beginning with [lo]. *)
Fixpoint chain (lo : float) (l : list interval) : Prop :=
  match l with
  | [] => True
  | (s, e) :: r => lo <= s /\ s < e /\ chain e r
  end.

(** *** Properties of a keep plan *)

(** Each interval ends before every later one starts. *)
Definition pairwise_non_overlapping (plan : list interval) : Prop :=
  StronglySorted (fun a b => a.2 <= b.1) plan.

(** Starts and ends both grow strictly along the plan. *)
Definition strictly_increasing (plan : list interval) : Prop :=
  StronglySorted (fun a b => a.1 < b.1 /\ a.2 < b.2) plan.

(** The length of an interval as the code computes it. *)
Definition length_of (i : interval) : float := i.2 - i.1.

(** Two spans whose interiors do not meet: one ends where or before the other
    starts. *)
Definition interiors_disjoint (a b : interval) : Prop :=
  a.2 <= b.1 \/ b.2 <= a.1.

(** The plan makes no cut at the silence [(s, e)]: no kept span ends at [s]
    and none starts at [e]. *)
Definition no_cut_at (plan : list interval) (s e : float) : Prop :=
  Forall (fun a => a.2 <> s /\ a.1 <> e) plan.

End Inverter.

(** ** Python strings

    A [str] is modelled by a [string]: its characters are the code points
    below 256. *)

Module PyStr.
Local Open Scope string_scope.
Local Open Scope nat_scope.

Definition code (c : ascii) : nat := nat_of_ascii c.

(** [str.isspace] on the code points below 256. *)
Definition is_space (c : ascii) : bool :=
  let n := code c in
  ((9 <=? n) && (n <=? 13)) || ((28 <=? n) && (n <=? 32))
  || (n =? 133) || (n =? 160).

Definition is_digit (c : ascii) : bool :=
  let n := code c in (48 <=? n) && (n <=? 57).

(** The line boundaries of [str.splitlines] below 256, a carriage return
    apart (it may be followed by a line feed). *)
Definition is_line_break (c : ascii) : bool :=
  let n := code c in
  (n =? 10) || (n =? 11) || (n =? 12) || (n =? 28) || (n =? 29) || (n =? 30)
  || (n =? 133).

Definition cons_to_head (c : ascii) (ls : list string) : list string :=
  match ls with
  | [] => [String c ""]
  | l :: ls' => String c l :: ls'
  end.

(** [str.splitlines]: the lines without their boundaries; a final line
    boundary does not open an empty last line. *)
Fixpoint splitlines (s : string) : list string :=
  match s with
  | "" => []
  | String c s' =>
      if code c =? 13 then
        match s' with
        | String c' s'' =>
            if code c' =? 10 then "" :: splitlines s'' else "" :: splitlines s'
        | "" => [""]
        end
      else if is_line_break c then "" :: splitlines s'
      else cons_to_head c (splitlines s')
  end.

(** [needle in hay]. *)
Fixpoint contains (needle hay : string) : bool :=
  String.prefix needle hay ||
  match hay with
  | "" => false
  | String _ hay' => contains needle hay'
  end.

Fixpoint drop_chars (n : nat) (s : string) : string :=
  match n, s with
  | S n', String _ s' => drop_chars n' s'
  | _, _ => s
  end.

Fixpoint lstrip (s : string) : string :=
  match s with
  | String c s' => if is_space c then lstrip s' else s
  | "" => ""
  end.

Fixpoint rstrip (s : string) : string :=
  match s with
  | "" => ""
  | String c s' =>
      match rstrip s' with
      | "" => if is_space c then "" else String c ""
      | r => String c r
      end
  end.

(** [str.strip()]. *)
Definition strip (s : string) : string := rstrip (lstrip s).

(** The longest prefix of digits, and what follows it. *)
Fixpoint take_digits (s : string) : string * string :=
  match s with
  | String c s' =>
      if is_digit c then let '(d, r) := take_digits s' in (String c d, r)
      else ("", s)
  | "" => ("", "")
  end.

Definition digit_value (c : ascii) : Z := (Z.of_nat (code c) - 48)%Z.

Fixpoint Z_of_digits_go (acc : Z) (s : string) : Z :=
  match s with
  | "" => acc
  | String c s' => Z_of_digits_go (10 * acc + digit_value c)%Z s'
  end.
Definition Z_of_digits : string -> Z := Z_of_digits_go 0%Z.

Definition lower (c : ascii) : ascii :=
  let n := code c in
  if (65 <=? n) && (n <=? 90) then ascii_of_nat (n + 32) else c.
Fixpoint lowercase (s : string) : string :=
  match s with "" => "" | String c s' => String (lower c) (lowercase s') end.

Definition is_empty (s : string) : bool :=
  match s with "" => true | _ => false end.

(** *** The regular expressions of [detect_silence]

    [re.search] with the pattern made of a literal [key], then [\s?], then
    the group [\d+\.?\d*]; the result is the text of the group. *)

(** [\d+\.?\d*] at the head of [s].  Each quantifier is greedy and nothing
    follows that could force it to give characters back. *)
Definition match_number (s : string) : option string :=
  let '(d1, r1) := take_digits s in
  if is_empty d1 then None
  else
    match r1 with
    | String c r2 =>
        if Ascii.eqb c "."
        then let '(d2, _) := take_digits r2 in Some (d1 ++ "." ++ d2)
        else Some d1
    | "" => Some d1
    end.

(** The whole pattern at the head of [s]: [\s?] first takes a white space
    character, and gives it back when no number follows it. *)
Definition match_here (key s : string) : option string :=
  if String.prefix key s then
    let r := drop_chars (String.length key) s in
    match r with
    | String c r' =>
        if is_space c then
          match match_number r' with
          | Some g => Some g
          | None => match_number r
          end
        else match_number r
    | "" => None
    end
  else None.

(** The leftmost position at which the pattern matches. *)
Fixpoint re_search (key s : string) : option string :=
  match match_here key s with
  | Some g => Some g
  | None =>
      match s with
      | "" => None
      | String _ s' => re_search key s'
      end
  end.

End PyStr.

(** ** The builtin [float] on strings *)

Module PyFloat.
Import Float64 PyStr.
Local Open Scope string_scope.

(** Underscores may group digits: each must stand between two digits.  The
    result is the text without them, [None] when one is misplaced. *)
Fixpoint strip_underscores_go (prev : ascii) (s : string) : option string :=
  match s with
  | "" => if Ascii.eqb prev "_" then None else Some ""
  | String c s' =>
      if Ascii.eqb c "_" then
        if is_digit prev then strip_underscores_go c s' else None
      else if Ascii.eqb prev "_" && negb (is_digit c) then None
      else String c <$> strip_underscores_go c s'
  end.
Definition strip_underscores : string -> option string :=
  strip_underscores_go Ascii.zero.

Definition split_sign (s : string) : bool * string :=
  match s with
  | String c r =>
      if Ascii.eqb c "-" then (true, r)
      else if Ascii.eqb c "+" then (false, r)
      else (false, s)
  | "" => (false, s)
  end.

(** What follows the mantissa: nothing, or [e] or [E], an optional sign and
    at least one digit. *)
Definition exponent (s : string) : option Z :=
  match s with
  | "" => Some 0%Z
  | String c r =>
      if Ascii.eqb (lower c) "e" then
        let '(neg, r') := split_sign r in
        let '(ds, rest) := take_digits r' in
        if is_empty ds || negb (is_empty rest) then None
        else Some (if neg then - Z_of_digits ds else Z_of_digits ds)%Z
      else None
  end.

(** [float(s)]; [None] stands for [ValueError]. *)
Definition py_float (s : string) : option float :=
  s ← strip_underscores (strip s);
  let '(neg, body) := split_sign s in
  let '(d1, r1) := take_digits body in
  let '(d2, r2) :=
    match r1 with
    | String c r => if Ascii.eqb c "." then take_digits r else ("", r1)
    | "" => ("", r1)
    end in
  if is_empty d1 && is_empty d2 then
    let name := lowercase body in
    if String.eqb name "inf" || String.eqb name "infinity"
    then Some (S754_infinity neg)
    else if String.eqb name "nan" then Some S754_nan
    else None
  else
    e ← exponent r2;
    Some (of_scientific neg (Z_of_digits (d1 ++ d2))
            (e - Z.of_nat (String.length d2))).

End PyFloat.


(** ** Effects

    The script prints, starts external programs, writes the manifest and
    owns a temporary directory.  A computation reads an environment (what
    the external programs answer, the directory [tempfile] hands out) and
    threads a world (the files written, the events so far); it returns a
    value or raises. *)

Module Py.
Import Float64.

(** Formatted text.  Strings and integers are rendered; the rendering of a
    float ([str], or the format [.3f]) is kept symbolic. *)
Inductive piece :=
  | Str (s : string)
  | Repr (x : float)
  | Fixed3 (x : float).

Definition text : Type := list piece.

Definition lit (s : string) : text := [Str s].

Record completed_process := CompletedProcess {
  returncode : Z;
  stdout : string;
  stderr : string
}.

(** What a process that was started leaves behind when it has ended: its
    exit status and what it wrote to its standard streams.  That output is
    bytes; [Decoded r] is a process whose output is text in the encoding of
    the locale, [r] holding the status and the two streams as
    [subprocess.run] hands them back with [text=True], and
    [Undecodable status] is one whose output is not text. *)
Inductive ended :=
  | Decoded (r : completed_process)
  | Undecodable (status : Z).

Definition status_of (x : ended) : Z :=
  match x with
  | Decoded r => returncode r
  | Undecodable status => status
  end.

(** The result of a call that captures the streams as text ([stdout=PIPE,
    stderr=PIPE, text=True]); [None] stands for the failure to decode. *)
Definition captured (x : ended) : option completed_process :=
  match x with
  | Decoded r => Some r
  | Undecodable _ => None
  end.

(** The result of a call that captures nothing: the streams go to the
    terminal, and the fields [stdout] and [stderr] of the result ([None] in
    Python, never read by the script) are left empty. *)
Definition uncaptured (x : ended) : completed_process :=
  CompletedProcess (status_of x) "" "".

Inductive exn :=
  | SystemExit (status : Z)
  | CalledProcessError (status : Z) (cmd : list text)
  | OSError (cmd : list text)
  | UnicodeDecodeError
  | ValueError.

Inductive event :=
  | Print (line : text)
  | Run (cmd : list text)
  | WriteFile (path content : string)
  | MkDTemp (dir : string)
  | RmTree (dir : string).

Record env := Env {
  (** The outcome of starting [cmd] and waiting for it; [None] when the
      program cannot be started.  It depends on the command only: the
      script never starts the same command twice. *)
  spawn : list text -> option ended;
  (** The directory that [tempfile.TemporaryDirectory] creates. *)
  fresh_dir : string
}.

(** [files] holds what the script itself has written (the manifest); what
    the external programs write is not tracked.  [trace] is the sequence of
    the events so far. *)
Record world := World {
  files : gmap string string;
  trace : list event
}.

Inductive outcome (A : Type) :=
  | Return (a : A)
  | Raise (e : exn).
Arguments Return {A} a.
Arguments Raise {A} e.

Definition M (A : Type) : Type := env -> world -> outcome A * world.

Definition ret {A} (a : A) : M A := fun _ w => (Return a, w).

Definition bind {A B} (m : M A) (k : A -> M B) : M B :=
  fun e w =>
    match m e w with
    | (Return a, w') => k a e w'
    | (Raise x, w') => (Raise x, w')
    end.

Definition raise {A} (x : exn) : M A := fun _ w => (Raise x, w).

Definition emit (ev : event) : M unit :=
  fun _ w => (Return tt, World (files w) (trace w ++ [ev])).

Definition print (line : text) : M unit := emit (Print line).

Definition sys_exit {A} (status : Z) : M A := raise (SystemExit status).

(** [subprocess.run(cmd, check=check)], and with [text] the call
    [subprocess.run(cmd, stderr=PIPE, stdout=PIPE, text=True)]: the streams
    are read and decoded before the status is looked at. *)
Definition subprocess_run (cmd : list text) (text check : bool)
    : M completed_process :=
  fun e w =>
    let w' := World (files w) (trace w ++ [Run cmd]) in
    match spawn e cmd with
    | None => (Raise (OSError cmd), w')
    | Some x =>
        match (if text then captured x else Some (uncaptured x)) with
        | None => (Raise UnicodeDecodeError, w')
        | Some r =>
            if check && negb (returncode r =? 0)%Z
            then (Raise (CalledProcessError (returncode r) cmd), w')
            else (Return r, w')
        end
    end.

(** [with open(path, 'w') as f: f.write(content)]. *)
Definition write_file (path content : string) : M unit :=
  fun _ w =>
    (Return tt,
     World (<[path := content]> (files w)) (trace w ++ [WriteFile path content])).

(** [for x in xs: body(x)]. *)
Fixpoint for_each {A} (xs : list A) (body : A -> M unit) : M unit :=
  match xs with
  | [] => ret tt
  | x :: xs' => bind (body x) (fun _ => for_each xs' body)
  end.

(** [with tempfile.TemporaryDirectory() as d: body(d)]: the directory and
    what was written below it are removed when the block is left, by a
    return or by an exception. *)
Definition with_temporary_directory {A} (body : string -> M A) : M A :=
  fun e w =>
    let d := fresh_dir e in
    let '(r, w') := body d e (World (files w) (trace w ++ [MkDTemp d])) in
    (r, World (filter (fun kv => String.prefix (d ++ "/") kv.1 = false) (files w'))
          (trace w' ++ [RmTree d])).

(** The commands started so far, in order. *)
Definition runs (w : world) : list (list text) :=
  omap (fun ev => match ev with Run cmd => Some cmd | _ => None end) (trace w).

(** The exit status of the interpreter when the script ends with this
    outcome: 0 after a return, the argument of [sys.exit], and 1 after any
    other exception, which nothing in the script catches. *)
Definition exit_status {A} (o : outcome A) : Z :=
  match o with
  | Return _ => 0
  | Raise (SystemExit status) => status
  | Raise _ => 1
  end.

End Py.

#[global] Instance M_ret : MRet Py.M := @Py.ret.
#[global] Instance M_bind : MBind Py.M := fun A B k m => Py.bind m k.

(** ** The pipeline of [Silence.py] *)

Section Silence.
Import Float64 PyStr PyFloat Py.
Local Open Scope string_scope.

Definition str_of_Z (n : Z) : string := NilZero.string_of_int (Z.to_int n).
Definition str_of_nat (n : nat) : string := str_of_Z (Z.of_nat n).

(** [os.path.join] of two components, with POSIX separators. *)
Definition path_join (a b : string) : string :=
  if String.prefix "/" b then b
  else if is_empty a || String.prefix "/" (String.rev a) then a ++ b
  else a ++ "/" ++ b.

(** *** [detect_silence] *)

Definition detect_cmd (input_file noise duration : string) (audio_track : Z)
    : list text :=
  [lit "ffmpeg";
   lit "-i"; lit input_file;
   lit "-map"; lit ("0:a:" ++ str_of_Z audio_track);
   lit "-af"; lit ("silencedetect=noise=" ++ noise ++ ":d=" ++ duration);
   lit "-f"; lit "null"; lit "-"].

(** One marker of one line: when [name] occurs in the line and the pattern
    for it matches, the timestamp is appended to [stamps].  [None] stands
    for the [ValueError] of [float]. *)
Definition scan_marker (name line : string) (stamps : list float)
    : option (list float) :=
  if contains name line then
    match re_search (name ++ ":") line with
    | Some g => x ← py_float g; Some (stamps ++ [x])%list
    | None => Some stamps
    end
  else Some stamps.

(** The loop over the lines of the log; the state is [silence_starts] and
    [silence_ends]. *)
Fixpoint scan_lines (lines : list string)
    (silence_starts silence_ends : list float)
    : option (list float * list float) :=
  match lines with
  | [] => Some (silence_starts, silence_ends)
  | line :: rest =>
      silence_starts ← scan_marker "silence_start" line silence_starts;
      silence_ends ← scan_marker "silence_end" line silence_ends;
      scan_lines rest silence_starts silence_ends
  end.

(** [for i in range(min(len(starts), len(ends)))]: the index runs over
    [count] values from [i] on; both lookups are in range. *)
Fixpoint pair_up (silence_starts silence_ends : list float)
    (i count : nat) (intervals : list interval) : list interval :=
  match count with
  | O => intervals
  | S count' =>
      match silence_starts !! i, silence_ends !! i with
      | Some s, Some e =>
          pair_up silence_starts silence_ends (S i) count' (intervals ++ [(s, e)])%list
      | _, _ => intervals
      end
  end.

(** Lines 25 to 39: from the text of the log to the intervals. *)
Definition parse_silence_log (output : string) : option (list interval) :=
  '(silence_starts, silence_ends) ← scan_lines (splitlines output) [] [];
  Some (pair_up silence_starts silence_ends 0
          (length silence_starts `min` length silence_ends) []).

Definition detect_silence (input_file noise duration : string)
    (audio_track : Z) : M (list interval) :=
  let cmd := detect_cmd input_file noise duration audio_track in
  print (lit "Running ffmpeg for silence detection...");;
  result ← subprocess_run cmd true false;
  let output := stderr result in
  match parse_silence_log output with
  | Some intervals => mret intervals
  | None => raise ValueError
  end.

(** *** [get_video_duration] *)

Definition probe_cmd (input_file : string) : list text :=
  [lit "ffprobe";
   lit "-i"; lit input_file;
   lit "-show_entries"; lit "format=duration";
   lit "-v"; lit "quiet";
   lit "-of"; lit "csv=p=0"].

Definition get_video_duration (input_file : string) : M float :=
  result ← subprocess_run (probe_cmd input_file) true false;
  let duration_str := strip (stdout result) in
  match py_float duration_str with
  | Some x => mret x
  | None =>
      print (lit "Error obtaining video duration.");;
      sys_exit 1
  end.

(** *** [cut_video_segments] *)

Definition segment_name (idx : nat) : string :=
  "segment_" ++ str_of_nat idx ++ ".mp4".

Definition cut_cmd (input_file : string) (reencode : bool)
    (start end_ : float) (output_segment : string) : list text :=
  let duration := Float64.sub end_ start in
  if reencode then
    [lit "ffmpeg";
     lit "-y";
     lit "-i"; lit input_file;
     lit "-ss"; [Repr start];
     lit "-to"; [Repr end_];
     lit "-map"; lit "0";
     lit "-c:v"; lit "libx264";
     lit "-preset"; lit "veryfast";
     lit "-crf"; lit "18";
     lit "-c:a"; lit "aac";
     lit "-b:a"; lit "192k";
     lit output_segment]
  else
    [lit "ffmpeg";
     lit "-y";
     lit "-ss"; [Repr start];
     lit "-i"; lit input_file;
     lit "-t"; [Repr duration];
     lit "-map"; lit "0:v";
     lit "-map"; lit "0:a";
     lit "-c"; lit "copy";
     lit "-movflags"; lit "+faststart";
     lit "-fflags"; lit "+genpts";
     lit output_segment].

(** The loop of [cut_video_segments]; [idx] is the counter of [enumerate]. *)
Fixpoint cut_loop (input_file temp_dir : string) (reencode : bool)
    (idx : nat) (intervals : list interval) (segment_files : list string)
    : M (list string) :=
  match intervals with
  | [] => mret segment_files
  | (start, end_) :: rest =>
      let output_segment := path_join temp_dir (segment_name idx) in
      let duration := Float64.sub end_ start in
      let cmd := cut_cmd input_file reencode start end_ output_segment in
      print [Str "Cutting segment "; Str (str_of_nat idx); Str ": ";
             Fixed3 start; Str " to "; Fixed3 end_; Str " (duration ";
             Fixed3 duration; Str ")..."];;
      subprocess_run cmd false true;;
      cut_loop input_file temp_dir reencode (S idx) rest
        (segment_files ++ [output_segment])%list
  end.

Definition cut_video_segments (input_file : string)
    (intervals : list interval) (temp_dir : string) (reencode : bool)
    : M (list string) :=
  cut_loop input_file temp_dir reencode 0 intervals [].

(** *** [concat_segments] *)

Definition newline : string := String (ascii_of_nat 10) "".

Definition manifest_line (seg : string) : string :=
  "file '" ++ seg ++ "'" ++ newline.

Definition manifest (segment_files : list string) : string :=
  foldr (fun seg rest => manifest_line seg ++ rest) "" segment_files.

Definition concat_cmd (list_file output_file : string) : list text :=
  [lit "ffmpeg";
   lit "-y";
   lit "-f"; lit "concat";
   lit "-safe"; lit "0";
   lit "-i"; lit list_file;
   lit "-map"; lit "0:v";
   lit "-map"; lit "0:a";
   lit "-c"; lit "copy";
   lit "-movflags"; lit "+faststart";
   lit output_file].

Definition concat_segments (segment_files : list string)
    (output_file temp_dir : string) : M unit :=
  let list_file := path_join temp_dir "segments.txt" in
  write_file list_file (manifest segment_files);;
  let cmd := concat_cmd list_file output_file in
  print (lit "Concatenating segments...");;
  subprocess_run cmd false true;;
  mret tt.

(** *** [main] *)

Record arguments := Namespace {
  arg_input : string;
  arg_output : string;
  arg_noise : string;
  arg_duration : string;
  arg_audio_track : Z;
  arg_reencode : bool
}.

Definition show_interval (i : interval) : text :=
  [Str "("; Repr i.1; Str ", "; Repr i.2; Str ")"].

Definition main (args : arguments) : M unit :=
  let input_file := arg_input args in
  let output_file := arg_output args in
  let noise := arg_noise args in
  let duration := arg_duration args in
  let audio_track := arg_audio_track args in
  let reencode := arg_reencode args in
  silence_intervals ← detect_silence input_file noise duration audio_track;
  print (lit "Detected silence intervals:");;
  for_each silence_intervals (fun interval => print (show_interval interval));;
  video_duration ← get_video_duration input_file;
  print [Str "Video duration: "; Repr video_duration; Str " seconds"];;
  let nonsilent_intervals :=
    compute_nonsilent_intervals silence_intervals video_duration
      default_min_gap in
  print (lit "Non-silent intervals to keep:");;
  for_each nonsilent_intervals (fun interval => print (show_interval interval));;
  match nonsilent_intervals with
  | [] =>
      print (lit "No non-silent intervals detected.");;
      sys_exit 1
  | _ :: _ =>
      with_temporary_directory (fun temp_dir =>
        segment_files ←
          cut_video_segments input_file nonsilent_intervals temp_dir reencode;
        concat_segments segment_files output_file temp_dir);;
      print [Str "Output video written to "; Str output_file]
  end.

(** *** Vocabulary of the properties *)

(** Every external program starts and exits with status 0. *)
Definition all_succeed (e : env) : Prop :=
  forall cmd, exists x, spawn e cmd = Some x /\ status_of x = 0%Z.

(** The path of the segment of ordinal [idx]. *)
Definition segment_path (temp_dir : string) (idx : nat) : string :=
  path_join temp_dir (segment_name idx).

(** The extraction command of the interval of ordinal [idx]. *)
Definition segment_cmd (input_file temp_dir : string) (reencode : bool)
    (idx : nat) (i : interval) : list text :=
  cut_cmd input_file reencode i.1 i.2 (segment_path temp_dir idx).

(** A line of the manifest as [splitlines] gives it back. *)
Definition quoted (seg : string) : string := "file '" ++ seg ++ "'".

Fixpoint all_chars (P : ascii -> bool) (s : string) : bool :=
  match s with
  | "" => true
  | String c s' => P c && all_chars P s'
  end.

(** The computation never leaves through [sys.exit]. *)
Definition no_exit {A} (m : M A) : Prop :=
  forall e w status, (m e w).1 <> Raise (SystemExit status).

(** A detector log with three [silence_start] lines and two [silence_end]
    lines: the last silence runs to the end of the file. *)
Definition sample_log : string :=
  "[silencedetect @ 0x5581] silence_start: 5" ++ newline
  ++ "[silencedetect @ 0x5581] silence_end: 7 | silence_duration: 2" ++ newline
  ++ "[silencedetect @ 0x5581] silence_start: 20" ++ newline
  ++ "[silencedetect @ 0x5581] silence_end: 21 | silence_duration: 1" ++ newline
  ++ "[silencedetect @ 0x5581] silence_start: 29.5" ++ newline.

(** The number of lines of the log on which [name] occurs. *)
Definition marker_lines (name output : string) : nat :=
  length (List.filter (contains name) (splitlines output)).


(** Scenario D read on the lines of the log: three [silence_start] lines
    and two [silence_end] lines give exactly two intervals, and the last
    start is the start of none of them. *)
Definition scenario_D (output : string) : Prop :=
  marker_lines "silence_start" output = 3%nat ->
  marker_lines "silence_end" output = 2%nat ->
  exists (starts ends : list float) (intervals : list interval),
    scan_lines (splitlines output) [] [] = Some (starts, ends)
    /\ parse_silence_log output = Some intervals
    /\ length intervals = 2%nat
    /\ forall x, last starts = Some x -> x ∉ intervals.*1.

(** The two conditions under which [main] calls [sys.exit]: both probes
    have run and handed back text, and either [float] rejects the stripped
    output of the duration probe or the keep plan is empty. *)
Definition exit_conditions (args : arguments) (e : env) : Prop :=
  exists r1 r2 silence,
    spawn e (detect_cmd (arg_input args) (arg_noise args) (arg_duration args)
               (arg_audio_track args)) = Some (Decoded r1)
    /\ parse_silence_log (stderr r1) = Some silence
    /\ spawn e (probe_cmd (arg_input args)) = Some (Decoded r2)
    /\ (py_float (strip (stdout r2)) = None
        \/ exists d,
             py_float (strip (stdout r2)) = Some d
             /\ compute_nonsilent_intervals silence d default_min_gap = []).

(** An environment without [ffmpeg] and [ffprobe]: no command starts. *)
Definition nothing_starts : env := Env (fun _ => None) "/tmp/tmpq".

(** Scenario C: one silence that covers the whole file, of duration 15. *)
Definition scenario_C_log : string :=
  "[silencedetect @ 0x5581] silence_start: 0" ++ newline
  ++ "[silencedetect @ 0x5581] silence_end: 15 | silence_duration: 15"
  ++ newline.

Definition scenario_C_env : env :=
  Env (fun _ => Some (Decoded (CompletedProcess 0 ("15.000000" ++ newline)
                                 scenario_C_log)))
    "/tmp/tmpq".

Definition sample_args : arguments :=
  Namespace "in.mp4" "out.mp4" "-50dB" "0.5" 0 false.

(** The characters of a timestamp: digits and the point. *)
Definition stamp_char (c : ascii) : bool := is_digit c || Ascii.eqb c ".".

(** No character of [s] ends a line. *)
Definition one_line (s : string) : bool :=
  all_chars (fun c => negb (is_line_break c || (code c =? 13)%nat)) s.

(** *** [get_audio_track_count] *)

Definition count_cmd (input_file : string) : list text :=
  [lit "ffprobe";
   lit "-v"; lit "error";
   lit "-select_streams"; lit "a";
   lit "-show_entries"; lit "stream=index";
   lit "-of"; lit "csv=p=0";
   lit input_file].

(** [[line.strip() for line in out.splitlines() if line.strip()]]: a string is
    true when it is not empty. *)
Definition stripped_lines (out : string) : list string :=
  map strip
    (List.filter (fun line => negb (is_empty (strip line))) (splitlines out)).

Definition get_audio_track_count (input_file : string) : M nat :=
  result ← subprocess_run (count_cmd input_file) true false;
  let lines := stripped_lines (stdout result) in
  mret (length lines).

(** *** Vocabulary of the further properties *)

(** The candidate spans of the sweep: from [0.0] or the end of a silence to
    the start of the next silence or the end of the file. *)
Definition candidates (silence : list interval) (total_duration : float)
    : list interval :=
  zip (zero :: map snd silence) (map fst silence ++ [total_duration])%list.

(** The test of the sweep on a span. *)
Definition long_enough (min_gap : float) (a : interval) : bool :=
  Float64.gtb (length_of a) min_gap.

(** Lines, each closed by a line feed. *)
Definition unlines (ls : list string) : string :=
  foldr (fun l rest => l ++ newline ++ rest) "" ls.

(** [key] occurs in [pre ++ s] at a position inside [pre]. *)
Fixpoint starts_in (key pre s : string) : bool :=
  match pre with
  | "" => false
  | String c pre' => String.prefix key (pre ++ s) || starts_in key pre' s
  end.

(** An unsigned decimal: digits, then possibly a point and more digits. *)
Definition decimal_text (d1 d2 : string) (point : bool) : string :=
  d1 ++ (if point then "." ++ d2 else "").

Definition stamp_text (g : string) : Prop :=
  exists d1 d2 point,
    g = decimal_text d1 d2 point
    /\ all_chars is_digit d1 = true /\ is_empty d1 = false
    /\ all_chars is_digit d2 = true /\ (point = false -> d2 = "").

(** At most one white space character. *)
Definition optional_space (sp : string) : Prop :=
  sp = "" \/ exists c, is_space c = true /\ sp = String c "".

(** The first character of [s], if any, is not part of a number. *)
Definition ends_number (s : string) : bool :=
  match s with
  | "" => true
  | String c _ => negb (stamp_char c)
  end.

(** A directory name as [tempfile] gives it: not empty, no final
    separator. *)
Definition proper_dir (d : string) : bool :=
  negb (is_empty d) && negb (String.prefix "/" (String.rev d)).

(** Whatever file exists after the computation existed before, with the
    same content, or lies below the directory [d]. *)
Definition writes_below (d : string) {A} (m : M A) : Prop :=
  forall e w path c,
    files (m e w).2 !! path = Some c ->
    files w !! path = Some c \/ String.prefix (d ++ "/") path = true.

(** Whatever file exists after the computation existed before, with the
    same content, when the temporary directory has a proper name. *)
Definition leaves_no_file {A} (m : M A) : Prop :=
  forall e w path c,
    proper_dir (fresh_dir e) = true ->
    files (m e w).2 !! path = Some c -> files w !! path = Some c.

(** An environment in which the extraction of the segment of ordinal 1
    fails and every other command succeeds. *)
Definition second_cut_fails : env :=
  Env (fun cmd =>
         match last cmd with
         | Some [Str p] =>
             Some (Decoded (CompletedProcess
                     (if String.eqb p "/tmp/tmpq/segment_1.mp4" then 1 else 0)
                     ("30.0" ++ newline) sample_log))
         | _ => Some (Decoded (CompletedProcess 0 ("30.0" ++ newline) sample_log))
         end)
    "/tmp/tmpq".

(** The first [k] commands of [cmds] succeed. *)
Definition succeed_upto (e : env) (cmds : list (list text)) (k : nat) : Prop :=
  forall j cmd, (j < k)%nat -> cmds !! j = Some cmd ->
    exists x, spawn e cmd = Some x /\ status_of x = 0%Z.

End Silence.


(** * Properties *)

(** ** Order and subtraction on floats

    The comparison of [spec_float] is a case analysis on the two
    constructors, then lexicographic on sign, exponent and mantissa; the
    lemmas below follow that case analysis and need no canonicity
    hypothesis. *)

Module Float64Facts.
Import Float64.
Local Open Scope float64_scope.

Ltac cmp_cases :=
  repeat match goal with
  | |- context [Z.compare ?a ?b] => destruct (Z.compare_spec a b)
  | H : context [Z.compare ?a ?b] |- _ => destruct (Z.compare_spec a b)
  | |- context [Pos.compare_cont Eq ?a ?b] =>
      change (Pos.compare_cont Eq a b) with (Pos.compare a b);
      destruct (Pos.compare_spec a b)
  | H : context [Pos.compare_cont Eq ?a ?b] |- _ =>
      change (Pos.compare_cont Eq a b) with (Pos.compare a b) in H;
      destruct (Pos.compare_spec a b)
  end.

Ltac float_cases x := destruct x as [[]|[]| |[] ? ?].

Ltac order3 x y z :=
  unfold leb, ltb, gtb, SFleb, SFltb, SFcompare;
  float_cases x; float_cases y; float_cases z;
  try discriminate; try reflexivity;
  intros; cmp_cases; simpl in *; try discriminate; try reflexivity; try lia.

Lemma leb_trans x y z : x <= y -> y <= z -> x <= z.
Proof. order3 x y z. Qed.

Lemma ltb_trans x y z : x < y -> y < z -> x < z.
Proof. order3 x y z. Qed.

Lemma ltb_leb_trans x y z : x < y -> y <= z -> x < z.
Proof. order3 x y z. Qed.

Lemma leb_ltb_trans x y z : x <= y -> y < z -> x < z.
Proof. order3 x y z. Qed.

Lemma ltb_leb x y : x < y -> x <= y.
Proof.
  unfold ltb, leb, SFltb, SFleb.
  destruct (SFcompare x y) as [[]|]; congruence.
Qed.

Lemma ltb_irrefl x : (x <? x) = false.
Proof.
  unfold ltb, SFltb, SFcompare.
  float_cases x; try reflexivity; cmp_cases; try reflexivity; lia.
Qed.

(** [x <= x] fails for NaN only; anything that compares is not NaN. *)
Lemma leb_refl_l x y : x <= y -> x <= x.
Proof.
  unfold leb, SFleb, SFcompare.
  float_cases x; float_cases y; try discriminate; try reflexivity;
    intros; cmp_cases; simpl in *; try discriminate; try reflexivity; lia.
Qed.

Lemma leb_refl_r x y : x <= y -> y <= y.
Proof.
  unfold leb, SFleb, SFcompare.
  float_cases x; float_cases y; try discriminate; try reflexivity;
    intros; cmp_cases; simpl in *; try discriminate; try reflexivity; lia.
Qed.

Lemma gtb_ltb x y : (x >? y) = (y <? x).
Proof. reflexivity. Qed.

(** Raising the threshold can only turn the test [x > g] off. *)
Lemma gtb_anti x g1 g2 : g1 <= g2 -> x > g2 -> x > g1.
Proof. unfold gtb. apply leb_ltb_trans. Qed.

(** [x - 0.0] is [x], for every float, NaN, infinities and [-0.0]
    included. *)
Lemma sub_zero_r x : x - zero = x.
Proof. float_cases x; reflexivity. Qed.

Lemma sub_diag s m e : S754_finite s m e - S754_finite s m e = zero.
Proof.
  unfold sub, SFsub. rewrite Z.min_id. unfold shl_align.
  rewrite !Z.sub_diag. reflexivity.
Qed.

Lemma zero_not_gtb s g : zero <= g -> (S754_zero s >? g) = false.
Proof. float_cases g; try discriminate; reflexivity. Qed.

(** A difference that exceeds a non-negative threshold is the difference of
    two distinct numbers: with [x <= y], [y - x > g >= 0] gives [x < y]. *)
Lemma sub_gtb_ltb x y g : x <= y -> zero <= g -> y - x > g -> x < y.
Proof.
  intros Hxy Hg Hs.
  destruct (x <? y) eqn:Hlt; [reflexivity|exfalso].
  assert (Hz : (y - x >? g) = false); [|congruence].
  clear Hs. revert Hxy Hlt. unfold leb, ltb, SFleb, SFltb, SFcompare.
  float_cases x; float_cases y; try discriminate;
    intros Hxy Hlt; try (apply zero_not_gtb; assumption);
    try (float_cases g; reflexivity);
    cmp_cases; simpl in Hxy, Hlt; try discriminate; try lia; subst;
    rewrite sub_diag; apply zero_not_gtb; assumption.
Qed.

End Float64Facts.

(** ** The interval inverter *)

Section InverterFacts.
Import Float64 Float64Facts.
Local Open Scope float64_scope.

Implicit Types (l silence : list interval) (td g p : float).

(** *** The loop and its recursive reading *)

Lemma sweep_app l g acc p :
  sweep l g acc p = (acc ++ (sweep l g [] p).1, (sweep l g [] p).2).
Proof.
  revert acc p. induction l as [|[s e] r IH]; intros acc p; simpl.
  - by rewrite app_nil_r.
  - rewrite IH. rewrite (IH (if s - p >? g then _ else _)).
    destruct (s - p >? g); simpl; [|done].
    by rewrite <- app_assoc.
Qed.

Lemma nonsilent_from_sweep l td g p :
  nonsilent_from l td g p =
  (sweep l g [] p).1 ++
  (if td - (sweep l g [] p).2 >? g then [((sweep l g [] p).2, td)] else []).
Proof.
  revert p. induction l as [|[s e] r IH]; intros p; simpl; [done|].
  rewrite IH, (sweep_app r g (if s - p >? g then _ else _) e). simpl.
  by rewrite app_assoc.
Qed.

Lemma compute_nonsilent_intervals_from silence td g :
  compute_nonsilent_intervals silence td g = nonsilent_from silence td g zero.
Proof.
  unfold compute_nonsilent_intervals. rewrite nonsilent_from_sweep.
  destruct (sweep silence g [] zero) as [acc q]; simpl.
  destruct (td - q >? g); [done|by rewrite app_nil_r].
Qed.

(** *** Valid reports as chains *)

Lemma adjacent_cons R a l :
  adjacent R (a :: l) = true ->
  adjacent R l = true /\ (forall b r, l = b :: r -> R a b = true).
Proof.
  destruct l as [|b r]; [by split|].
  change (adjacent R (a :: b :: r)) with (R a b && adjacent R (b :: r)).
  intros [Hab Hr]%andb_true_iff. split; [done|]. by intros ? ? [= <- <-].
Qed.

Lemma well_formed_spec td i :
  well_formed td i = true <-> zero <= i.1 /\ i.1 < i.2 /\ i.2 <= td.
Proof. unfold well_formed. rewrite !andb_true_iff. tauto. Qed.

Lemma valid_report_inv silence td :
  valid_report silence td = true ->
  Forall (fun i => zero <= i.1 /\ i.1 < i.2 /\ i.2 <= td) silence
  /\ non_overlapping silence = true.
Proof.
  unfold valid_report. rewrite !andb_true_iff. intros [[Hwf _] Hno].
  split; [|done]. apply Forall_forall. intros i Hi.
  apply well_formed_spec. rewrite forallb_forall in Hwf.
  by apply Hwf, list_elem_of_In.
Qed.

Lemma chain_of_adjacent lo l td :
  Forall (fun i => zero <= i.1 /\ i.1 < i.2 /\ i.2 <= td) l ->
  non_overlapping l = true ->
  (forall b r, l = b :: r -> lo <= b.1) ->
  chain lo l.
Proof.
  revert lo. induction l as [|[s e] r IH]; intros lo Hwf Hno Hlo; simpl; [done|].
  apply Forall_cons in Hwf as [(_ & Hse & _) Hwf].
  apply adjacent_cons in Hno as [Hno Hhd].
  split; [exact (Hlo _ _ eq_refl)|]. split; [done|].
  apply IH; [done|done|]. intros b r' ->. exact (Hhd _ _ eq_refl).
Qed.

Lemma valid_report_chain silence td :
  valid_report silence td = true ->
  chain zero silence /\ Forall (fun i => i.2 <= td) silence.
Proof.
  intros [Hwf Hno]%valid_report_inv. split.
  - eapply chain_of_adjacent; [done|done|].
    intros b r ->. by apply Forall_cons in Hwf as [(? & _) _].
  - eapply Forall_impl; [done|]. by intros ? (_ & _ & ?).
Qed.

(** Every start of a chain is at or after its lower bound. *)
Lemma chain_lower lo l : chain lo l -> Forall (fun i => lo <= i.1) l.
Proof.
  revert lo. induction l as [|[s e] r IH]; intros lo; simpl; [done|].
  intros (Hlo & Hse & Hr). constructor; [done|].
  eapply Forall_impl; [by apply IH|]. simpl. intros i Hi.
  exact (leb_trans _ _ _ Hlo (leb_trans _ _ _ (ltb_leb _ _ Hse) Hi)).
Qed.

(** *** The spans emitted from a loop state *)

(** The last span is emitted only when [prev_end < video_duration]; at the
    start of the sweep [prev_end] is [0.0] and the test reads
    [video_duration > min_gap]. *)
Lemma final_span_lt td g p :
  p <= td \/ p = zero -> zero <= g -> td - p > g -> p < td.
Proof.
  intros [Hp| ->] Hg Hgt.
  - exact (sub_gtb_ltb _ _ _ Hp Hg Hgt).
  - rewrite sub_zero_r in Hgt. exact (leb_ltb_trans _ _ _ Hg Hgt).
Qed.

Lemma nonsilent_from_spans l td g p :
  chain p l -> Forall (fun i => i.2 <= td) l -> p <= td \/ p = zero ->
  p <= p -> zero <= g ->
  Forall (fun a => p <= a.1 /\ a.1 < a.2 /\ length_of a > g)
    (nonsilent_from l td g p)
  /\ pairwise_non_overlapping (nonsilent_from l td g p).
Proof.
  unfold pairwise_non_overlapping.
  revert p. induction l as [|[s e] r IH]; intros p Hch Htd Hp Hpp Hg; simpl.
  - destruct (td - p >? g) eqn:Hgt; [|split; constructor].
    split; repeat constructor; simpl;
      [done|exact (final_span_lt _ _ _ Hp Hg Hgt)|done].
  - destruct Hch as (Hps & Hse & Hch). apply Forall_cons in Htd as [He Htd].
    destruct (IH e Hch Htd (or_introl He) (leb_refl_r _ _ (ltb_leb _ _ Hse)) Hg)
      as [Hall Hss].
    assert (Hpe : p <= e) by exact (leb_trans _ _ _ Hps (ltb_leb _ _ Hse)).
    assert (Hall' : Forall (fun a => p <= a.1 /\ a.1 < a.2 /\ length_of a > g)
                      (nonsilent_from r td g e)).
    { eapply Forall_impl; [exact Hall|]. simpl. intros a (Hea & ? & ?).
      split; [|done]. exact (leb_trans _ _ _ Hpe Hea). }
    destruct (s - p >? g) eqn:Hgt; simpl; [|done].
    split.
    + constructor; [|done]. simpl. split; [done|]. split; [|done].
      exact (sub_gtb_ltb _ _ _ Hps Hg Hgt).
    + constructor; [done|]. eapply Forall_impl; [exact Hall|].
      simpl. intros a (Hea & _). exact (leb_trans _ _ _ (ltb_leb _ _ Hse) Hea).
Qed.

Lemma non_overlapping_increasing (plan : list interval) :
  Forall (fun a => a.1 < a.2) plan ->
  pairwise_non_overlapping plan -> strictly_increasing plan.
Proof.
  unfold pairwise_non_overlapping, strictly_increasing.
  induction plan as [|a plan IH]; intros Hlt Hss; [constructor|].
  apply Forall_cons in Hlt as [Ha Hlt].
  apply StronglySorted_inv in Hss as [Hss Hhd].
  constructor; [by apply IH|].
  rewrite Forall_forall in Hhd, Hlt. apply Forall_forall. intros b Hb.
  split.
  - exact (ltb_leb_trans _ _ _ Ha (Hhd _ Hb)).
  - exact (leb_ltb_trans _ _ _ (Hhd _ Hb) (Hlt _ Hb)).
Qed.

Lemma nonsilent_from_disjoint l td g p :
  chain p l -> p <= p ->
  Forall (fun a => p <= a.1 /\ Forall (interiors_disjoint a) l)
    (nonsilent_from l td g p).
Proof.
  revert p. induction l as [|[s e] r IH]; intros p Hch Hpp; simpl.
  - destruct (td - p >? g); [|constructor].
    apply Forall_singleton. by split.
  - destruct Hch as (Hps & Hse & Hch).
    pose proof (ltb_leb _ _ Hse) as Hse'.
    pose proof (chain_lower _ _ Hch) as Hlow.
    apply Forall_app. split.
    + destruct (s - p >? g); [|constructor].
      apply Forall_singleton. simpl. split; [done|].
      apply Forall_cons. split; [left; exact (leb_refl_l _ _ Hse')|].
      eapply Forall_impl; [exact Hlow|]. intros i Hi. left. simpl.
      exact (leb_trans _ _ _ Hse' Hi).
    + eapply Forall_impl; [exact (IH e Hch (leb_refl_r _ _ Hse'))|].
      simpl. intros a [Hea Hdis]. split.
      * exact (leb_trans _ _ _ Hps (leb_trans _ _ _ Hse' Hea)).
      * constructor; [by right|done].
Qed.

Lemma nonsilent_from_sublist l td g1 g2 p :
  g1 <= g2 ->
  nonsilent_from l td g2 p `sublist_of` nonsilent_from l td g1 p.
Proof.
  intros Hg. revert p. induction l as [|[s e] r IH]; intros p; simpl.
  - destruct (td - p >? g2) eqn:H2; [|apply sublist_nil_l].
    by rewrite (gtb_anti _ _ _ Hg H2).
  - apply sublist_app; [|apply IH].
    destruct (s - p >? g2) eqn:H2; [|apply sublist_nil_l].
    by rewrite (gtb_anti _ _ _ Hg H2).
Qed.

(** *** The claims about [compute_nonsilent_intervals] *)

(** C1.  For a silence report that is sorted by start, non-overlapping and
    contained in [[0, total_duration]], each interval with
    [0 <= start < end], and for [min_gap >= 0], the intervals returned by
    [compute_nonsilent_intervals] are pairwise non-overlapping, strictly
    increasing in time, and each of length (as the code computes it,
    [end - start] in floating point) strictly greater than [min_gap]; each
    has moreover [start < end]. *)
Theorem keep_plan_invariant silence td g :
  valid_report silence td = true -> zero <= g ->
  let plan := compute_nonsilent_intervals silence td g in
  pairwise_non_overlapping plan
  /\ strictly_increasing plan
  /\ Forall (fun a => length_of a > g) plan
  /\ Forall (fun a => a.1 < a.2) plan.
Proof.
  intros Hv Hg plan. subst plan. rewrite compute_nonsilent_intervals_from.
  destruct (valid_report_chain _ _ Hv) as [Hch Htd].
  destruct (nonsilent_from_spans silence td g zero Hch Htd
              (or_intror eq_refl) eq_refl Hg) as [Hall Hss].
  assert (Hlt : Forall (fun a : interval => a.1 < a.2)
                  (nonsilent_from silence td g zero)).
  { eapply Forall_impl; [exact Hall|]. by intros a (_ & ? & _). }
  split; [done|]. split; [by apply non_overlapping_increasing|].
  split; [|done]. eapply Forall_impl; [exact Hall|]. by intros a (_ & _ & ?).
Qed.

Lemma keep_plan_invariant_witness :
  let silence := [(of_Z 5, of_Z 7); (of_Z 20, of_Z 21)] in
  valid_report silence (of_Z 30) = true
  /\ zero <= default_min_gap
  /\ pairwise_non_overlapping
       (compute_nonsilent_intervals silence (of_Z 30) default_min_gap)
  /\ strictly_increasing
       (compute_nonsilent_intervals silence (of_Z 30) default_min_gap).
Proof.
  intros silence.
  assert (Hv : valid_report silence (of_Z 30) = true) by reflexivity.
  assert (Hg : zero <= default_min_gap) by reflexivity.
  destruct (keep_plan_invariant silence (of_Z 30) default_min_gap Hv Hg)
    as (H1 & H2 & _).
  repeat split; assumption.
Defined.

(** C2.  Scenario A: silence [(5,7),(20,21)], duration 30 and
    [min_gap = 0.1] give exactly [(0,5),(7,20),(21,30)]. *)
Theorem scenario_A :
  compute_nonsilent_intervals
    [(of_Z 5, of_Z 7); (of_Z 20, of_Z 21)] (of_Z 30) (of_decimal 1 1)
  = [(zero, of_Z 5); (of_Z 7, of_Z 20); (of_Z 21, of_Z 30)].
Proof. vm_compute. reflexivity. Qed.

(** C3.  On an empty silence report [compute_nonsilent_intervals] returns
    the single interval [(0, total_duration)] when
    [total_duration > min_gap] and the empty list when
    [total_duration <= min_gap], for every [total_duration] and
    [min_gap]. *)
Theorem empty_report td g :
  (td > g -> compute_nonsilent_intervals [] td g = [(zero, td)])
  /\ (td <= g -> compute_nonsilent_intervals [] td g = []).
Proof.
  unfold compute_nonsilent_intervals. simpl. rewrite sub_zero_r. split.
  - by intros ->.
  - intros Hle. destruct (td >? g) eqn:Hgt; [|done].
    pose proof (leb_ltb_trans _ _ _ Hle Hgt) as Hirr.
    by rewrite ltb_irrefl in Hirr.
Qed.

Lemma empty_report_witness :
  of_Z 15 > default_min_gap
  /\ compute_nonsilent_intervals [] (of_Z 15) default_min_gap
     = [(zero, of_Z 15)]
  /\ of_decimal 5 2 <= default_min_gap
  /\ compute_nonsilent_intervals [] (of_decimal 5 2) default_min_gap = [].
Proof.
  assert (H1 : of_Z 15 > default_min_gap) by reflexivity.
  assert (H2 : of_decimal 5 2 <= default_min_gap) by reflexivity.
  split; [exact H1|]. split.
  - exact (proj1 (empty_report (of_Z 15) default_min_gap) H1).
  - split; [exact H2|].
    exact (proj2 (empty_report (of_decimal 5 2) default_min_gap) H2).
Defined.

(** C4.  The comparison with [min_gap] is strict.  When the candidate span
    between two consecutive silences has length exactly [min_gap]
    ([start - prev_end = min_gap]) the loop step leaves [intervals] as it
    is, and when the final span has length exactly [min_gap]
    ([total_duration - prev_end = min_gap]) nothing is appended after the
    loop. *)
Theorem min_gap_tie_dropped silence start end_ rest td g acc p :
  (start - p = g ->
   sweep ((start, end_) :: rest) g acc p = sweep rest g acc end_)
  /\ (td - (sweep silence g [] zero).2 = g ->
      compute_nonsilent_intervals silence td g = (sweep silence g [] zero).1).
Proof.
  split.
  - intros Heq. simpl. rewrite Heq. unfold gtb.
    by rewrite (ltb_irrefl g : SFltb g g = false).
  - intros Heq. unfold compute_nonsilent_intervals.
    destruct (sweep silence g [] zero) as [out q]. simpl in *.
    rewrite Heq. unfold gtb. by rewrite (ltb_irrefl g : SFltb g g = false).
Qed.

Lemma min_gap_tie_dropped_witness :
  let half := of_decimal 5 1 in
  let silence := [(of_Z 1, of_Z 2); (of_decimal 25 1, of_Z 3)] in
  of_decimal 25 1 - of_Z 2 = half
  /\ sweep [(of_decimal 25 1, of_Z 3)] half [(zero, of_Z 1)] (of_Z 2)
     = sweep [] half [(zero, of_Z 1)] (of_Z 3)
  /\ of_decimal 35 1 - (sweep silence half [] zero).2 = half
  /\ compute_nonsilent_intervals silence (of_decimal 35 1) half
     = [(zero, of_Z 1)].
Proof.
  intros half silence.
  assert (H1 : of_decimal 25 1 - of_Z 2 = half) by reflexivity.
  assert (H2 : of_decimal 35 1 - (sweep silence half [] zero).2 = half)
    by reflexivity.
  destruct (min_gap_tie_dropped silence (of_decimal 25 1) (of_Z 3) []
              (of_decimal 35 1) half [(zero, of_Z 1)] (of_Z 2)) as [Ha Hb].
  split; [exact H1|]. split; [exact (Ha H1)|]. split; [exact H2|].
  exact (Hb H2).
Defined.

(** C5, as stated, fails: for the silence [(2.0, 2.05)], duration 10 and
    [min_gap = 0.1] the plan does cut at that silence. *)
Lemma short_silence_is_cut :
  ~ no_cut_at
      (compute_nonsilent_intervals [(of_Z 2, of_decimal 205 2)] (of_Z 10)
         (of_decimal 1 1))
      (of_Z 2) (of_decimal 205 2).
Proof.
  unfold no_cut_at. intros H. apply Forall_cons in H as [[H _] _].
  apply H. reflexivity.
Qed.

(** C5, amended.  [min_gap] bounds the length of the kept spans, not of the
    silences: the silence [(2.0, 2.05)] is removed like any other.  With
    [min_gap = 0.1] and a duration that leaves more than [min_gap] after
    2.05, the plan is [(0, 2.0), (2.05, total_duration)]. *)
Theorem short_silence_plan td :
  td - of_decimal 205 2 > of_decimal 1 1 ->
  compute_nonsilent_intervals [(of_Z 2, of_decimal 205 2)] td (of_decimal 1 1)
  = [(zero, of_Z 2); (of_decimal 205 2, td)].
Proof.
  intros Hgt. unfold compute_nonsilent_intervals.
  change (sweep [(of_Z 2, of_decimal 205 2)] (of_decimal 1 1) [] zero)
    with ([(zero, of_Z 2)], of_decimal 205 2).
  cbv beta iota. by rewrite Hgt.
Qed.

Lemma short_silence_plan_witness :
  of_Z 10 - of_decimal 205 2 > of_decimal 1 1
  /\ compute_nonsilent_intervals [(of_Z 2, of_decimal 205 2)] (of_Z 10)
       (of_decimal 1 1)
     = [(zero, of_Z 2); (of_decimal 205 2, of_Z 10)].
Proof.
  assert (H : of_Z 10 - of_decimal 205 2 > of_decimal 1 1) by reflexivity.
  split; [exact H|exact (short_silence_plan (of_Z 10) H)].
Defined.

(** C9.  The kept spans are complementary to the silence: for a report that
    is sorted by start, non-overlapping and contained in
    [[0, total_duration]], every interval returned by
    [compute_nonsilent_intervals] and every silence interval have disjoint
    interiors (they share at most an endpoint). *)
Theorem keep_disjoint_from_silence silence td g (a s : interval) :
  valid_report silence td = true ->
  a ∈ compute_nonsilent_intervals silence td g -> s ∈ silence ->
  interiors_disjoint a s.
Proof.
  intros Hv Ha Hs. rewrite compute_nonsilent_intervals_from in Ha.
  destruct (valid_report_chain _ _ Hv) as [Hch _].
  pose proof (nonsilent_from_disjoint silence td g zero Hch eq_refl) as Hall.
  rewrite Forall_forall in Hall. destruct (Hall a Ha) as [_ Hdis].
  rewrite Forall_forall in Hdis. by apply Hdis.
Qed.

Lemma keep_disjoint_from_silence_witness :
  let silence := [(of_Z 5, of_Z 7); (of_Z 20, of_Z 21)] in
  valid_report silence (of_Z 30) = true
  /\ interiors_disjoint (of_Z 7, of_Z 20) (of_Z 20, of_Z 21).
Proof.
  intros silence.
  assert (Hv : valid_report silence (of_Z 30) = true) by reflexivity.
  split; [exact Hv|].
  apply (keep_disjoint_from_silence silence (of_Z 30) default_min_gap
           (of_Z 7, of_Z 20) (of_Z 20, of_Z 21) Hv).
  - vm_compute. apply list_elem_of_further, list_elem_of_here.
  - apply list_elem_of_further, list_elem_of_here.
Defined.

(** C10.  [min_gap] is a filter, monotone in the threshold: for every
    silence list and duration and all thresholds [g1 <= g2], the plan
    computed with [g2] is a sublist, in the same order, of the plan computed
    with [g1]. *)
Theorem min_gap_monotone silence td g1 g2 :
  g1 <= g2 ->
  compute_nonsilent_intervals silence td g2
  `sublist_of` compute_nonsilent_intervals silence td g1.
Proof.
  intros Hg. rewrite !compute_nonsilent_intervals_from.
  by apply nonsilent_from_sublist.
Qed.

Lemma min_gap_monotone_witness :
  let silence := [(of_Z 1, of_Z 2); (of_decimal 25 1, of_Z 3)] in
  default_min_gap <= of_decimal 5 1
  /\ compute_nonsilent_intervals silence (of_Z 9) (of_decimal 5 1)
     `sublist_of`
     compute_nonsilent_intervals silence (of_Z 9) default_min_gap.
Proof.
  intros silence.
  assert (Hg : default_min_gap <= of_decimal 5 1) by reflexivity.
  split; [exact Hg|].
  exact (min_gap_monotone silence (of_Z 9) _ _ Hg).
Defined.

End InverterFacts.

(** ** Computations *)

Section PyFacts.
Import Py.

Lemma bind_eq {A B} (m : M A) (k : A -> M B) e w :
  (m ≫= k) e w =
  match m e w with
  | (Return a, w') => k a e w'
  | (Raise x, w') => (Raise x, w')
  end.
Proof. reflexivity. Qed.

Lemma runs_snoc fs t ev :
  runs (World fs (t ++ [ev])) =
  runs (World fs t) ++ match ev with Run cmd => [cmd] | _ => [] end.
Proof. unfold runs. simpl. rewrite omap_app. by destruct ev. Qed.

Lemma runs_app fs t t' :
  runs (World fs (t ++ t')) = runs (World fs t) ++ runs (World fs t').
Proof. unfold runs. simpl. apply omap_app. Qed.

Lemma print_eq line e w :
  print line e w = (Return tt, World (files w) (trace w ++ [Print line])).
Proof. reflexivity. Qed.

(** A command that exits with status 0 returns under [check]; nothing of
    its output is captured. *)
Lemma subprocess_run_ok cmd e w x :
  spawn e cmd = Some x -> status_of x = 0%Z ->
  subprocess_run cmd false true e w
  = (Return (uncaptured x), World (files w) (trace w ++ [Run cmd])).
Proof.
  intros Hs Hx. unfold subprocess_run. rewrite Hs. cbn [uncaptured returncode].
  by rewrite Hx.
Qed.

(** Without [check] the exit status is not looked at: a capturing call
    returns as soon as the output decodes. *)
Lemma subprocess_run_unchecked cmd e w r :
  spawn e cmd = Some (Decoded r) ->
  subprocess_run cmd true false e w
  = (Return r, World (files w) (trace w ++ [Run cmd])).
Proof. intros Hs. unfold subprocess_run. by rewrite Hs. Qed.

(** A capturing call raises when the output does not decode. *)
Lemma subprocess_run_undecodable cmd check e w status :
  spawn e cmd = Some (Undecodable status) ->
  subprocess_run cmd true check e w
  = (Raise UnicodeDecodeError, World (files w) (trace w ++ [Run cmd])).
Proof. intros Hs. unfold subprocess_run. by rewrite Hs. Qed.

Lemma for_each_print {A} (show : A -> text) (xs : list A) e w :
  for_each xs (fun x => print (show x)) e w
  = (Return tt, World (files w) (trace w ++ map (fun x => Print (show x)) xs)).
Proof.
  revert w. induction xs as [|x xs IH]; intros [fs t]; simpl.
  - unfold ret. by rewrite app_nil_r.
  - unfold bind. rewrite print_eq, IH. simpl. by rewrite <- app_assoc.
Qed.

Lemma runs_only_prints {A} (show : A -> text) (xs : list A) fs :
  runs (World fs (map (fun x => Print (show x)) xs)) = [].
Proof. unfold runs. simpl. induction xs; simpl; auto. Qed.

End PyFacts.

(** ** Extraction and stitching *)

Section SegmentFacts.
Import Float64 PyStr Py.
Local Open Scope string_scope.

Lemma cut_loop_ok e input_file temp_dir reencode :
  all_succeed e ->
  forall (plan : list interval) (idx : nat) (acc : list string) (w : world),
  exists w1,
    cut_loop input_file temp_dir reencode idx plan acc e w
    = (Return (acc ++ imap (fun i _ => segment_path temp_dir (idx + i)) plan)%list,
       w1)
    /\ runs w1
       = (runs w
          ++ imap (fun i iv =>
                     segment_cmd input_file temp_dir reencode (idx + i) iv) plan)%list
    /\ files w1 = files w.
Proof.
  intros Hok plan.
  induction plan as [|[s t] rest IH]; intros idx acc [fs tr]; simpl.
  - exists (World fs tr). by rewrite !app_nil_r.
  - destruct (Hok (cut_cmd input_file reencode s t
                     (path_join temp_dir (segment_name idx)))) as (r & Hr & H0).
    rewrite bind_eq, print_eq. cbv beta iota.
    rewrite bind_eq, (subprocess_run_ok _ _ _ r Hr H0). cbv beta iota.
    match goal with
    | |- context [cut_loop _ _ _ (S idx) rest ?a e ?w0] =>
        destruct (IH (S idx) a w0) as (w1 & Hrun & Hruns & Hfiles)
    end.
    assert (E1 : imap (fun i (_ : interval) => segment_path temp_dir (S idx + i)) rest
                 = imap ((fun i (_ : interval) => segment_path temp_dir (idx + i)) ∘ S) rest).
    { apply imap_ext. intros i x _. simpl. f_equal. lia. }
    assert (E2 : imap (fun i iv => segment_cmd input_file temp_dir reencode (S idx + i) iv) rest
                 = imap ((fun i iv => segment_cmd input_file temp_dir reencode (idx + i) iv) ∘ S) rest).
    { apply imap_ext. intros i x _. simpl. f_equal. lia. }
    exists w1. rewrite Hrun, Hruns, Hfiles, E1, E2. cbn [files trace].
    rewrite !runs_snoc. cbn [imap]. rewrite Nat.add_0_r, <- !app_assoc.
    split; [reflexivity|]. split; [|reflexivity].
    rewrite app_nil_l. reflexivity.
Qed.

Lemma concat_segments_ok e segment_files output_file temp_dir w :
  all_succeed e ->
  let list_file := path_join temp_dir "segments.txt" in
  concat_segments segment_files output_file temp_dir e w
  = (Return tt,
     World (<[list_file := manifest segment_files]> (files w))
       (trace w
        ++ [WriteFile list_file (manifest segment_files);
            Print (lit "Concatenating segments...");
            Run (concat_cmd list_file output_file)])).
Proof.
  intros Hok list_file.
  destruct (Hok (concat_cmd list_file output_file)) as (r & Hr & H0).
  unfold concat_segments. fold list_file.
  rewrite bind_eq. unfold write_file at 1. cbv beta iota.
  rewrite bind_eq, print_eq. cbv beta iota.
  rewrite bind_eq, (subprocess_run_ok _ _ _ r Hr H0). cbv beta iota.
  cbn [files trace]. unfold mret, M_ret, ret.
  by rewrite <- !app_assoc.
Qed.

(** *** The lines of the manifest *)

Lemma append_cons c (s r : string) : String c s ++ r = String c (s ++ r).
Proof. reflexivity. Qed.

Lemma append_assoc (a b c : string) : (a ++ b) ++ c = a ++ (b ++ c).
Proof. induction a as [|x a IH]; [done|]. by rewrite !append_cons, IH. Qed.

Lemma append_nil_r (a : string) : a ++ "" = a.
Proof. induction a as [|x a IH]; [done|]. by rewrite append_cons, IH. Qed.

Lemma all_chars_app P (a b : string) :
  all_chars P (a ++ b) = all_chars P a && all_chars P b.
Proof.
  induction a as [|x a IH]; [done|].
  rewrite append_cons. simpl. by rewrite IH, andb_assoc.
Qed.

Lemma splitlines_line (s rest : string) :
  one_line s = true ->
  splitlines (s ++ newline ++ rest) = s :: splitlines rest.
Proof.
  unfold one_line. induction s as [|c s IH]; intros Hs; [done|].
  simpl in Hs. apply andb_true_iff in Hs as [Hc Hs].
  apply negb_true_iff, orb_false_iff in Hc as [Hbr Hcr].
  rewrite append_cons. cbn [splitlines]. rewrite Hcr, Hbr, (IH Hs). done.
Qed.

Lemma manifest_line_quoted seg : manifest_line seg = quoted seg ++ newline.
Proof. unfold manifest_line, quoted. by rewrite !append_assoc. Qed.

Lemma splitlines_manifest (segment_files : list string) :
  Forall (fun seg => one_line seg = true) segment_files ->
  splitlines (manifest segment_files) = map quoted segment_files.
Proof.
  induction 1 as [|seg segs Hseg _ IH]; [done|].
  change (manifest (seg :: segs)) with (manifest_line seg ++ manifest segs).
  rewrite manifest_line_quoted, append_assoc, splitlines_line, IH; [done|].
  unfold quoted, one_line. rewrite !all_chars_app. fold (one_line seg).
  by rewrite Hseg.
Qed.

Lemma one_line_uint d : one_line (NilEmpty.string_of_uint d) = true.
Proof. induction d; simpl; auto. Qed.

Lemma one_line_str_of_Z n : one_line (str_of_Z n) = true.
Proof.
  unfold str_of_Z, NilZero.string_of_int, NilZero.string_of_uint.
  destruct n as [|p|p]; simpl; [done| |];
    destruct (Pos.to_uint p) eqn:E; rewrite <- ?E; try done;
    try apply one_line_uint; apply (one_line_uint (Pos.to_uint p)).
Qed.

Lemma one_line_segment_path temp_dir idx :
  one_line temp_dir = true -> one_line (segment_path temp_dir idx) = true.
Proof.
  intros Hd. unfold segment_path, path_join, segment_name, str_of_nat.
  assert (Hn : one_line ("segment_" ++ str_of_Z (Z.of_nat idx) ++ ".mp4") = true).
  { unfold one_line. rewrite !all_chars_app.
    fold (one_line (str_of_Z (Z.of_nat idx))).
    by rewrite one_line_str_of_Z. }
  repeat case_match; [exact Hn| |]; unfold one_line in *.
  - by rewrite all_chars_app, Hd, Hn.
  - by rewrite all_chars_app, Hd, all_chars_app, Hn.
Qed.

(** C8.  When the external commands succeed, [cut_video_segments] starts
    one extraction per interval, in the order of the keep plan, the one of
    ordinal [idx] writing [segment_idx.mp4] in the temporary directory, and
    returns these paths in the same order; [concat_segments] then writes a
    manifest that holds, in that order, one line [file 'path'] per segment
    (read back with [splitlines] when the directory name has no line break
    in it), and starts the concatenation on it. *)
Theorem segments_in_plan_order e w input_file (plan : list interval)
    temp_dir reencode output_file :
  all_succeed e ->
  let paths := imap (fun idx _ => segment_path temp_dir idx) plan in
  let list_file := path_join temp_dir "segments.txt" in
  exists w1 w2,
    cut_video_segments input_file plan temp_dir reencode e w = (Return paths, w1)
    /\ (forall idx i, plan !! idx = Some i ->
        paths !! idx
        = Some (path_join temp_dir ("segment_" ++ str_of_nat idx ++ ".mp4")))
    /\ runs w1
       = (runs w ++ imap (segment_cmd input_file temp_dir reencode) plan)%list
    /\ concat_segments paths output_file temp_dir e w1 = (Return tt, w2)
    /\ files w2 !! list_file = Some (manifest paths)
    /\ runs w2 = (runs w1 ++ [concat_cmd list_file output_file])%list
    /\ (one_line temp_dir = true ->
        splitlines (manifest paths) = map quoted paths).
Proof.
  intros Hok paths list_file.
  destruct (cut_loop_ok e input_file temp_dir reencode Hok plan 0 [] w)
    as (w1 & Hrun & Hruns & _).
  exists w1. eexists. split; [exact Hrun|].
  split.
  { intros idx i Hi. unfold paths. rewrite list_lookup_imap, Hi. done. }
  split; [exact Hruns|].
  split; [apply concat_segments_ok, Hok|].
  cbn [files trace]. split; [apply lookup_insert_eq|]. split.
  { destruct w1 as [fs tr]. cbn [files trace].
    by rewrite runs_app. }
  intros Hd. apply splitlines_manifest. unfold paths.
  apply Forall_forall. intros seg Hseg.
  apply elem_of_lookup_imap in Hseg as (idx & i & -> & _).
  by apply one_line_segment_path.
Qed.

Lemma segments_in_plan_order_witness :
  let e := Env (fun _ => Some (Decoded (CompletedProcess 0 "" ""))) "/tmp/tmpq" in
  let w := World ∅ [] in
  let plan := [(zero, of_Z 5); (of_Z 7, of_Z 20); (of_Z 21, of_Z 30)] in
  all_succeed e
  /\ exists w1,
       cut_video_segments "in.mp4" plan "/tmp/tmpq" false e w
       = (Return ["/tmp/tmpq/segment_0.mp4"; "/tmp/tmpq/segment_1.mp4";
                  "/tmp/tmpq/segment_2.mp4"], w1).
Proof.
  intros e w plan.
  assert (Hok : all_succeed e).
  { intros cmd. exists (Decoded (CompletedProcess 0 "" "")). split; reflexivity. }
  split; [exact Hok|].
  destruct (segments_in_plan_order e w "in.mp4" plan "/tmp/tmpq" false
              "out.mp4" Hok) as (w1 & _ & Hcut & _).
  exists w1. exact Hcut.
Defined.

End SegmentFacts.

(** ** The silence analyzer *)

Section ParseFacts.
Import Float64 PyStr PyFloat Py.
Local Open Scope string_scope.

(** *** What [float] makes of a matched timestamp *)

Lemma digit_not_space c : is_digit c = true -> is_space c = false.
Proof. destruct c as [[] [] [] [] [] [] [] []]; vm_compute; congruence. Qed.

Lemma digit_not_special c :
  is_digit c = true ->
  Ascii.eqb c "_" = false /\ Ascii.eqb c "-" = false
  /\ Ascii.eqb c "+" = false /\ Ascii.eqb c "." = false.
Proof. destruct c as [[] [] [] [] [] [] [] []]; vm_compute; intuition congruence. Qed.

Lemma take_digits_spec s d r :
  take_digits s = (d, r) ->
  all_chars is_digit d = true /\ s = d ++ r
  /\ match r with String c _ => is_digit c = false | "" => True end.
Proof.
  revert d r. induction s as [|c s IH]; intros d r; simpl.
  - intros [= <- <-]. done.
  - destruct (is_digit c) eqn:Hc.
    + destruct (take_digits s) as [d' r'] eqn:E. intros [= <- <-].
      destruct (IH d' r' eq_refl) as (Hd & -> & Hr).
      simpl. by rewrite Hc, Hd.
    + intros [= <- <-]. by rewrite Hc.
Qed.

Lemma take_digits_app d r :
  all_chars is_digit d = true ->
  match r with String c _ => is_digit c = false | "" => True end ->
  take_digits (d ++ r) = (d, r).
Proof.
  intros Hd Hr. induction d as [|c d IH]; simpl in *.
  - destruct r as [|c r]; [done|]. simpl. by rewrite Hr.
  - apply andb_true_iff in Hd as [Hc Hd].
    by rewrite Hc, (IH Hd).
Qed.

Lemma take_digits_all d :
  all_chars is_digit d = true -> take_digits d = (d, "").
Proof.
  intros Hd. induction d as [|c d IH]; simpl in *; [done|].
  apply andb_true_iff in Hd as [Hc Hd]. by rewrite Hc, (IH Hd).
Qed.

Lemma stamp_char_plain c :
  stamp_char c = true -> is_space c = false /\ Ascii.eqb c "_" = false.
Proof.
  destruct c as [[] [] [] [] [] [] [] []]; vm_compute; intuition congruence.
Qed.

Lemma rstrip_stamp s : all_chars stamp_char s = true -> rstrip s = s.
Proof.
  induction s as [|c s IH]; simpl; [done|].
  intros [Hc Hs]%andb_true_iff. rewrite (IH Hs).
  destruct s; [|done]. by destruct (stamp_char_plain c Hc) as [-> _].
Qed.

Lemma lstrip_stamp s : all_chars stamp_char s = true -> lstrip s = s.
Proof.
  destruct s as [|c s]; simpl; [done|].
  intros [Hc _]%andb_true_iff. by destruct (stamp_char_plain c Hc) as [-> _].
Qed.

Lemma strip_underscores_stamp prev s :
  Ascii.eqb prev "_" = false -> all_chars stamp_char s = true ->
  strip_underscores_go prev s = Some s.
Proof.
  revert prev. induction s as [|c s IH]; intros prev Hp; simpl.
  - by rewrite Hp.
  - intros [Hc Hs]%andb_true_iff.
    destruct (stamp_char_plain c Hc) as [_ Hu]. rewrite Hu, Hp. simpl.
    by rewrite (IH c Hu Hs).
Qed.

Lemma all_digits_stamp d :
  all_chars is_digit d = true -> all_chars stamp_char d = true.
Proof.
  induction d as [|c d IH]; simpl; [done|].
  intros [Hc Hd]%andb_true_iff. unfold stamp_char at 1. by rewrite Hc, (IH Hd).
Qed.

(** [float] accepts a run of digits, a point or not, and more digits, and
    reads it as the decimal it spells. *)
Lemma py_float_stamp (d1 d2 : string) (point : bool) :
  all_chars is_digit d1 = true -> is_empty d1 = false ->
  all_chars is_digit d2 = true -> (point = false -> d2 = "") ->
  py_float (d1 ++ (if point then "." ++ d2 else ""))
  = Some (of_scientific false (Z_of_digits (d1 ++ d2))
            (- Z.of_nat (String.length d2))).
Proof.
  intros H1 Hne H2 Hp.
  set (tail := if point then "." ++ d2 else "").
  assert (Hall : all_chars stamp_char (d1 ++ tail) = true).
  { rewrite all_chars_app, (all_digits_stamp _ H1). subst tail.
    destruct point; [|done]. simpl. by apply all_digits_stamp. }
  unfold py_float, strip. rewrite (lstrip_stamp _ Hall), (rstrip_stamp _ Hall).
  unfold strip_underscores. rewrite (strip_underscores_stamp Ascii.zero _ eq_refl Hall).
  simpl.
  destruct d1 as [|c d1]; [done|]. simpl in H1.
  apply andb_true_iff in H1 as [Hc H1].
  destruct (digit_not_special c Hc) as (_ & Hm & Hpl & _).
  unfold split_sign. rewrite append_cons, Hm, Hpl.
  rewrite <- append_cons.
  rewrite (take_digits_app (String c d1) tail);
    [|by simpl; rewrite Hc, H1|by subst tail; destruct point].
  subst tail. destruct point.
  - change ("." ++ d2) with (String "." d2). cbv beta iota.
    rewrite Ascii.eqb_refl, (take_digits_all _ H2). reflexivity.
  - rewrite (Hp eq_refl). reflexivity.
Qed.

Lemma match_number_float s g :
  match_number s = Some g -> is_Some (py_float g).
Proof.
  unfold match_number.
  destruct (take_digits s) as [d1 r1] eqn:E1.
  destruct (take_digits_spec _ _ _ E1) as (H1 & _ & _).
  destruct (is_empty d1) eqn:Hne; [done|].
  assert (Hplain : is_Some (py_float d1)).
  { pose proof (py_float_stamp d1 "" false H1 Hne eq_refl (fun _ => eq_refl)) as H.
    cbv beta iota in H. rewrite append_nil_r in H. by rewrite H. }
  destruct r1 as [|c r2]; [by intros [= <-]|].
  destruct (Ascii.eqb c "."); [|by intros [= <-]].
  destruct (take_digits r2) as [d2 r3] eqn:E2.
  destruct (take_digits_spec _ _ _ E2) as (H2 & _ & _).
  intros [= <-].
  pose proof (py_float_stamp d1 d2 true H1 Hne H2) as H.
  cbv beta iota in H. rewrite H; [done|]. discriminate.
Qed.

Lemma match_here_float key s g :
  match_here key s = Some g -> is_Some (py_float g).
Proof.
  unfold match_here. destruct (String.prefix key s); [|done].
  destruct (drop_chars (String.length key) s) as [|c r]; [done|].
  destruct (is_space c).
  - destruct (match_number r) as [g'|] eqn:E.
    + intros [= <-]. exact (match_number_float _ _ E).
    + apply match_number_float.
  - apply match_number_float.
Qed.

Lemma re_search_float key s g :
  re_search key s = Some g -> is_Some (py_float g).
Proof.
  induction s as [|c s IH]; simpl.
  - destruct (match_here key "") eqn:E; [|done]. intros [= <-].
    exact (match_here_float _ _ _ E).
  - destruct (match_here key (String c s)) eqn:E; [|exact IH].
    intros [= <-]. exact (match_here_float _ _ _ E).
Qed.

(** *** The scan of the log cannot fail *)

Lemma scan_marker_total name line stamps :
  exists stamps', scan_marker name line stamps = Some stamps'.
Proof.
  unfold scan_marker. destruct (contains name line); [|by eexists].
  destruct (re_search (name ++ ":") line) as [g|] eqn:E; [|by eexists].
  destruct (re_search_float _ _ _ E) as [x ->]. by eexists.
Qed.

Lemma scan_lines_total lines starts ends :
  exists starts' ends', scan_lines lines starts ends = Some (starts', ends').
Proof.
  revert starts ends. induction lines as [|line rest IH]; intros starts ends.
  - by do 2 eexists.
  - simpl.
    destruct (scan_marker_total "silence_start" line starts) as [s' ->].
    destruct (scan_marker_total "silence_end" line ends) as [e' ->].
    simpl. apply IH.
Qed.

(** *** Pairing by position *)

Lemma pair_up_zip (starts ends : list float) (count i : nat) acc :
  (i + count <= length starts)%nat -> (i + count <= length ends)%nat ->
  pair_up starts ends i count acc
  = (acc ++ take count (drop i (zip starts ends)))%list.
Proof.
  revert i acc. induction count as [|count IH]; intros i acc Hs He; simpl.
  - by rewrite app_nil_r.
  - destruct (lookup_lt_is_Some_2 starts i) as [s Hsi]; [lia|].
    destruct (lookup_lt_is_Some_2 ends i) as [t Hti]; [lia|].
    rewrite Hsi, Hti, IH by lia.
    assert (Hz : zip starts ends !! i = Some (s, t)).
    { rewrite lookup_zip_with, Hsi. simpl. by rewrite Hti. }
    rewrite (drop_S _ _ _ Hz). simpl. by rewrite <- app_assoc.
Qed.

Lemma pair_up_all (starts ends : list float) :
  pair_up starts ends 0 (length starts `min` length ends) []
  = zip starts ends.
Proof.
  rewrite pair_up_zip by lia. simpl. rewrite drop_0.
  apply take_ge. rewrite length_zip_with. lia.
Qed.

Lemma parse_silence_log_zip output :
  exists starts ends,
    scan_lines (splitlines output) [] [] = Some (starts, ends)
    /\ parse_silence_log output = Some (zip starts ends).
Proof.
  destruct (scan_lines_total (splitlines output) [] []) as (starts & ends & H).
  exists starts, ends. split; [done|].
  unfold parse_silence_log. rewrite H. simpl. by rewrite pair_up_all.
Qed.

(** *** One timestamp per marker line at most *)



(** Scenario D holds of the sample log: the three starts 5, 20 and 29.5
    and the two ends 7 and 21 give the two intervals (5, 7) and (20, 21). *)
Lemma scenario_D_sample_log : scenario_D sample_log.
Proof.
  intros _ _.
  exists [of_Z 5; of_Z 20; of_decimal 295 1], [of_Z 7; of_Z 21],
    [(of_Z 5, of_Z 7); (of_Z 20, of_Z 21)].
  split; [by vm_compute|]. split; [by vm_compute|]. split; [reflexivity|].
  intros x [= <-] H. vm_compute in H.
  repeat (apply elem_of_cons in H as [H|H]; [discriminate H|]).
  by apply elem_of_nil in H.
Qed.




End ParseFacts.

(** ** The run *)

Section MainFacts.
Import Float64 PyStr PyFloat Py.
Local Open Scope string_scope.

(** *** What can leave through [sys.exit] *)

Lemma no_exit_ret {A} (a : A) : no_exit (mret a).
Proof. by intros e w status. Qed.

Lemma no_exit_bind {A B} (m : M A) (k : A -> M B) :
  no_exit m -> (forall a, no_exit (k a)) -> no_exit (m ≫= k).
Proof.
  intros Hm Hk e w status. rewrite bind_eq.
  specialize (Hm e w status).
  destruct (m e w) as [[a|x] w']; simpl in *; [apply Hk|].
  intros [= ->]. by apply Hm.
Qed.

Lemma no_exit_print line : no_exit (print line).
Proof. by intros e w status. Qed.

Lemma no_exit_write_file path content : no_exit (write_file path content).
Proof. by intros e w status. Qed.

Lemma no_exit_subprocess_run cmd text check :
  no_exit (subprocess_run cmd text check).
Proof.
  intros e w status. unfold subprocess_run.
  destruct (spawn e cmd) as [x|]; [|done].
  destruct (if text then captured x else Some (uncaptured x)) as [r|]; [|done].
  by destruct (check && negb (returncode r =? 0)%Z).
Qed.

Lemma no_exit_cut_loop input_file temp_dir reencode idx plan acc :
  no_exit (cut_loop input_file temp_dir reencode idx plan acc).
Proof.
  revert idx acc. induction plan as [|[s t] rest IH]; intros idx acc.
  - apply no_exit_ret.
  - apply no_exit_bind; [apply no_exit_print|intros _].
    apply no_exit_bind; [apply no_exit_subprocess_run|intros _]. apply IH.
Qed.

Lemma no_exit_concat_segments segment_files output_file temp_dir :
  no_exit (concat_segments segment_files output_file temp_dir).
Proof.
  apply no_exit_bind; [apply no_exit_write_file|intros _].
  apply no_exit_bind; [apply no_exit_print|intros _].
  apply no_exit_bind; [apply no_exit_subprocess_run|intros _].
  apply no_exit_ret.
Qed.

Lemma no_exit_with_temporary_directory {A} (body : string -> M A) :
  (forall d, no_exit (body d)) -> no_exit (with_temporary_directory body).
Proof.
  intros Hb e w status. unfold with_temporary_directory.
  specialize (Hb (fresh_dir e) e
                (World (files w) (trace w ++ [MkDTemp (fresh_dir e)])) status).
  by destruct (body _ _ _) as [o w'].
Qed.

(** *** The two probes *)

Lemma detect_silence_run e w input_file noise duration audio_track r silence :
  spawn e (detect_cmd input_file noise duration audio_track)
  = Some (Decoded r) ->
  parse_silence_log (stderr r) = Some silence ->
  detect_silence input_file noise duration audio_track e w
  = (Return silence,
     World (files w)
       (trace w ++ [Print (lit "Running ffmpeg for silence detection...");
                    Run (detect_cmd input_file noise duration audio_track)])).
Proof.
  intros Hr Hp. unfold detect_silence.
  rewrite bind_eq, print_eq. cbv beta iota.
  rewrite bind_eq, (subprocess_run_unchecked _ _ _ r Hr). cbv beta iota.
  rewrite Hp. cbn [files trace]. unfold mret, M_ret, ret.
  by rewrite <- app_assoc.
Qed.

Lemma detect_silence_not_started e w input_file noise duration audio_track :
  spawn e (detect_cmd input_file noise duration audio_track) = None ->
  (detect_silence input_file noise duration audio_track e w).1
  = Raise (OSError (detect_cmd input_file noise duration audio_track)).
Proof.
  intros Hr. unfold detect_silence.
  rewrite bind_eq, print_eq. cbv beta iota.
  rewrite bind_eq. unfold subprocess_run. by rewrite Hr.
Qed.

Lemma detect_silence_undecodable e w input_file noise duration audio_track
    status :
  spawn e (detect_cmd input_file noise duration audio_track)
  = Some (Undecodable status) ->
  (detect_silence input_file noise duration audio_track e w).1
  = Raise UnicodeDecodeError.
Proof.
  intros Hr. unfold detect_silence.
  rewrite bind_eq, print_eq. cbv beta iota.
  by rewrite bind_eq, (subprocess_run_undecodable _ _ _ _ status Hr).
Qed.

Lemma get_video_duration_run e w input_file r :
  spawn e (probe_cmd input_file) = Some (Decoded r) ->
  get_video_duration input_file e w
  = match py_float (strip (stdout r)) with
    | Some x =>
        (Return x, World (files w) (trace w ++ [Run (probe_cmd input_file)]))
    | None =>
        (Raise (SystemExit 1),
         World (files w)
           (trace w ++ [Run (probe_cmd input_file);
                        Print (lit "Error obtaining video duration.")]))
    end.
Proof.
  intros Hr. unfold get_video_duration.
  rewrite bind_eq, (subprocess_run_unchecked _ _ _ r Hr). cbv beta iota.
  destruct (py_float (strip (stdout r))); [reflexivity|].
  rewrite bind_eq, print_eq. cbv beta iota. cbn [files trace].
  unfold sys_exit, raise. by rewrite <- app_assoc.
Qed.

Lemma get_video_duration_not_started e w input_file :
  spawn e (probe_cmd input_file) = None ->
  (get_video_duration input_file e w).1
  = Raise (OSError (probe_cmd input_file)).
Proof.
  intros Hr. unfold get_video_duration.
  rewrite bind_eq. unfold subprocess_run. by rewrite Hr.
Qed.

Lemma get_video_duration_undecodable e w input_file status :
  spawn e (probe_cmd input_file) = Some (Undecodable status) ->
  (get_video_duration input_file e w).1 = Raise UnicodeDecodeError.
Proof.
  intros Hr. unfold get_video_duration.
  by rewrite bind_eq, (subprocess_run_undecodable _ _ _ _ status Hr).
Qed.

(** *** [main] up to the emptiness test *)

(** The world before the test on [nonsilent_intervals]: both probes have
    run, in this order, and nothing else has. *)
Lemma main_runs_before_test fs t (c1 c2 : list text) (l1 l2 l3 l4 : text)
    {A B} (show1 : A -> text) (xs : list A) (show2 : B -> text) (ys : list B)
    (tail : list event) :
  runs (World fs tail) = [] ->
  runs (World fs
          ((((((((t ++ [Print l1; Run c1]) ++ [Print l2])
                ++ map (fun x => Print (show1 x)) xs) ++ [Run c2])
              ++ [Print l3]) ++ [Print l4])
            ++ map (fun y => Print (show2 y)) ys) ++ tail))
  = (runs (World fs t) ++ [c1; c2])%list.
Proof.
  intros Htail. rewrite !runs_app, !runs_only_prints, Htail.
  cbn. rewrite !app_nil_r. by rewrite <- app_assoc.
Qed.

Lemma main_test args e w r1 r2 silence d :
  spawn e (detect_cmd (arg_input args) (arg_noise args) (arg_duration args)
             (arg_audio_track args)) = Some (Decoded r1) ->
  parse_silence_log (stderr r1) = Some silence ->
  spawn e (probe_cmd (arg_input args)) = Some (Decoded r2) ->
  py_float (strip (stdout r2)) = Some d ->
  exists w',
    files w' = files w
    /\ runs w'
       = (runs w ++ [detect_cmd (arg_input args) (arg_noise args)
                       (arg_duration args) (arg_audio_track args);
                     probe_cmd (arg_input args)])%list
    /\ main args e w
       = match compute_nonsilent_intervals silence d default_min_gap with
         | [] =>
             (Raise (SystemExit 1),
              World (files w')
                (trace w' ++ [Print (lit "No non-silent intervals detected.")]))
         | plan =>
             ((with_temporary_directory (fun temp_dir =>
                 segment_files ←
                   cut_video_segments (arg_input args) plan temp_dir
                     (arg_reencode args);
                 concat_segments segment_files (arg_output args) temp_dir);;
               print [Str "Output video written to "; Str (arg_output args)])
                e w')
         end.
Proof.
  intros H1 Hp H2 Hd. destruct w as [fs t].
  exists (World fs
    (((((((t ++ [Print (lit "Running ffmpeg for silence detection...");
                 Run (detect_cmd (arg_input args) (arg_noise args)
                        (arg_duration args) (arg_audio_track args))])
          ++ [Print (lit "Detected silence intervals:")])
         ++ map (fun x => Print (show_interval x)) silence)
        ++ [Run (probe_cmd (arg_input args))])
       ++ [Print [Str "Video duration: "; Repr d; Str " seconds"]])
      ++ [Print (lit "Non-silent intervals to keep:")])
     ++ map (fun x => Print (show_interval x))
          (compute_nonsilent_intervals silence d default_min_gap))).
  split; [|split]; cycle 2.
  { unfold main. cbv zeta.
    rewrite bind_eq, (detect_silence_run _ _ _ _ _ _ r1 silence H1 Hp).
    cbv beta iota.
    rewrite bind_eq, print_eq. cbv beta iota.
    rewrite bind_eq, for_each_print. cbv beta iota.
    rewrite bind_eq, (get_video_duration_run _ _ _ r2 H2), Hd. cbv beta iota.
    rewrite bind_eq, print_eq. cbv beta iota.
    rewrite bind_eq, print_eq. cbv beta iota.
    rewrite bind_eq, for_each_print. cbv beta iota. cbn [files trace].
    destruct (compute_nonsilent_intervals silence d default_min_gap) eqn:E;
      [|reflexivity].
    rewrite bind_eq, print_eq. reflexivity. }
  { reflexivity. }
  { cbn [files trace].
    rewrite <- (app_nil_r (_ ++ map _ _)).
    by rewrite (main_runs_before_test fs t). }
Qed.

Lemma main_detect_not_started args e w :
  spawn e (detect_cmd (arg_input args) (arg_noise args) (arg_duration args)
             (arg_audio_track args)) = None ->
  exists cmd, (main args e w).1 = Raise (OSError cmd).
Proof.
  intros H1. eexists. unfold main. cbv zeta. rewrite bind_eq.
  pose proof (detect_silence_not_started e w _ _ _ _ H1) as H.
  destruct (detect_silence _ _ _ _ e w) as [o w1]. simpl in H. subst o.
  reflexivity.
Qed.

Lemma main_detect_undecodable args e w status :
  spawn e (detect_cmd (arg_input args) (arg_noise args) (arg_duration args)
             (arg_audio_track args)) = Some (Undecodable status) ->
  (main args e w).1 = Raise UnicodeDecodeError.
Proof.
  intros H1. unfold main. cbv zeta. rewrite bind_eq.
  pose proof (detect_silence_undecodable e w _ _ _ _ _ H1) as H.
  destruct (detect_silence _ _ _ _ e w) as [o w1]. simpl in H. subst o.
  reflexivity.
Qed.

Lemma main_probe_not_started args e w r1 silence :
  spawn e (detect_cmd (arg_input args) (arg_noise args) (arg_duration args)
             (arg_audio_track args)) = Some (Decoded r1) ->
  parse_silence_log (stderr r1) = Some silence ->
  spawn e (probe_cmd (arg_input args)) = None ->
  exists cmd, (main args e w).1 = Raise (OSError cmd).
Proof.
  intros H1 Hp H2. eexists. unfold main. cbv zeta.
  rewrite bind_eq, (detect_silence_run _ _ _ _ _ _ r1 silence H1 Hp).
  cbv beta iota.
  rewrite bind_eq, print_eq. cbv beta iota.
  rewrite bind_eq, for_each_print. cbv beta iota. rewrite bind_eq.
  match goal with
  | |- context [get_video_duration ?f e ?w0] =>
      pose proof (get_video_duration_not_started e w0 f H2) as H;
      destruct (get_video_duration f e w0) as [o w1]
  end.
  simpl in H. subst o. reflexivity.
Qed.

Lemma main_probe_undecodable args e w r1 silence status :
  spawn e (detect_cmd (arg_input args) (arg_noise args) (arg_duration args)
             (arg_audio_track args)) = Some (Decoded r1) ->
  parse_silence_log (stderr r1) = Some silence ->
  spawn e (probe_cmd (arg_input args)) = Some (Undecodable status) ->
  (main args e w).1 = Raise UnicodeDecodeError.
Proof.
  intros H1 Hp H2. unfold main. cbv zeta.
  rewrite bind_eq, (detect_silence_run _ _ _ _ _ _ r1 silence H1 Hp).
  cbv beta iota.
  rewrite bind_eq, print_eq. cbv beta iota.
  rewrite bind_eq, for_each_print. cbv beta iota. rewrite bind_eq.
  match goal with
  | |- context [get_video_duration ?f e ?w0] =>
      pose proof (get_video_duration_undecodable e w0 f status H2) as H;
      destruct (get_video_duration f e w0) as [o w1]
  end.
  simpl in H. subst o. reflexivity.
Qed.

Lemma main_unparsable args e w r1 r2 silence :
  spawn e (detect_cmd (arg_input args) (arg_noise args) (arg_duration args)
             (arg_audio_track args)) = Some (Decoded r1) ->
  parse_silence_log (stderr r1) = Some silence ->
  spawn e (probe_cmd (arg_input args)) = Some (Decoded r2) ->
  py_float (strip (stdout r2)) = None ->
  exists w',
    main args e w = (Raise (SystemExit 1), w')
    /\ files w' = files w
    /\ runs w'
       = (runs w ++ [detect_cmd (arg_input args) (arg_noise args)
                       (arg_duration args) (arg_audio_track args);
                     probe_cmd (arg_input args)])%list.
Proof.
  intros H1 Hp H2 Hd. destruct w as [fs t]. eexists. split.
  { unfold main. cbv zeta.
    rewrite bind_eq, (detect_silence_run _ _ _ _ _ _ r1 silence H1 Hp).
    cbv beta iota.
    rewrite bind_eq, print_eq. cbv beta iota.
    rewrite bind_eq, for_each_print. cbv beta iota.
    rewrite bind_eq, (get_video_duration_run _ _ _ r2 H2), Hd.
    reflexivity. }
  cbn [files trace]. split; [reflexivity|].
  rewrite !runs_app, runs_only_prints. cbn.
  rewrite !app_nil_r. by rewrite <- app_assoc.
Qed.

Lemma no_exit_extract_and_stitch args (plan : list interval) :
  no_exit
    (with_temporary_directory (fun temp_dir =>
       segment_files ←
         cut_video_segments (arg_input args) plan temp_dir (arg_reencode args);
       concat_segments segment_files (arg_output args) temp_dir);;
     print [Str "Output video written to "; Str (arg_output args)]).
Proof.
  apply (no_exit_bind (A:=unit) (B:=unit)); [|intros; apply no_exit_print].
  apply no_exit_with_temporary_directory. intros d.
  apply no_exit_bind; [apply no_exit_cut_loop|].
  intros. apply no_exit_concat_segments.
Qed.

(** C7, as stated, fails when [ffmpeg] cannot be started: the call of
    [subprocess.run] in [detect_silence] raises, nothing catches the
    exception, and the run ends with exit status 1 although the duration
    probe has not even run and no keep plan has been computed. *)
Lemma exit_status_1_without_condition :
  exit_status (main sample_args nothing_starts (World ∅ [])).1 = 1%Z
  /\ (main sample_args nothing_starts (World ∅ [])).1
     = Raise (OSError (detect_cmd "in.mp4" "-50dB" "0.5" 0))
  /\ ~ exit_conditions sample_args nothing_starts
  /\ ~ (exit_status (main sample_args nothing_starts (World ∅ [])).1 = 1%Z
        <-> exit_conditions sample_args nothing_starts).
Proof.
  assert (Hno : ~ exit_conditions sample_args nothing_starts).
  { intros (r1 & r2 & silence & H & _). discriminate H. }
  split; [reflexivity|]. split; [reflexivity|].
  split; [exact Hno|]. intros [H _]. by apply Hno, H.
Qed.

(** C7.  [main] leaves through [sys.exit], with status 1, in two cases
    exactly, both before any segment is extracted: when the output of the
    duration probe is not accepted by [float], and when the keep plan is
    empty.  In both cases the only external commands that have run are the
    silence detection and the duration probe: no extraction and no
    concatenation has been started, so no output file is produced, and the
    script has written no file of its own.  The exit status of the run is 0
    when [main] returns and 1 otherwise: besides the two cases it is 1
    whenever an exception of [subprocess.run] ends the run. *)
Theorem main_exit_status args e w :
  let detect := detect_cmd (arg_input args) (arg_noise args)
                  (arg_duration args) (arg_audio_track args) in
  let probe := probe_cmd (arg_input args) in
  ((main args e w).1 = Raise (SystemExit 1) <-> exit_conditions args e)
  /\ (forall status,
        (main args e w).1 = Raise (SystemExit status) ->
        status = 1
        /\ runs (main args e w).2 = (runs w ++ [detect; probe])%list
        /\ files (main args e w).2 = files w)
  /\ (exit_status (main args e w).1 = 0 <-> (main args e w).1 = Return tt)
  /\ (exit_status (main args e w).1 = 1
      <-> exists x, (main args e w).1 = Raise x).
Proof.
  intros detect probe.
  assert (Hexit : forall status,
            (main args e w).1 = Raise (SystemExit status) ->
            status = 1
            /\ runs (main args e w).2 = (runs w ++ [detect; probe])%list
            /\ files (main args e w).2 = files w).
  { destruct (spawn e detect) as [[r1|s1]|] eqn:H1.
    2:{ intros status. by rewrite (main_detect_undecodable args e w s1 H1). }
    2:{ destruct (main_detect_not_started args e w H1) as [cmd Hm].
        intros status. by rewrite Hm. }
    destruct (parse_silence_log_zip (stderr r1)) as (ss & es & _ & Hp).
    destruct (spawn e probe) as [[r2|s2]|] eqn:H2.
    2:{ intros status.
        by rewrite (main_probe_undecodable args e w r1 _ s2 H1 Hp H2). }
    2:{ destruct (main_probe_not_started args e w r1 _ H1 Hp H2) as [cmd Hm].
        intros status. by rewrite Hm. }
    destruct (py_float (strip (stdout r2))) as [d|] eqn:Hd; cycle 1.
    { destruct (main_unparsable args e w r1 r2 _ H1 Hp H2 Hd)
        as (w' & Hm & Hf & Hr).
      rewrite Hm. simpl. intros status [= <-]. done. }
    destruct (main_test args e w r1 r2 _ d H1 Hp H2 Hd) as (w' & Hf & Hr & Hm).
    rewrite Hm.
    destruct (compute_nonsilent_intervals (zip ss es) d default_min_gap)
      as [|i plan] eqn:E.
    - simpl. intros status [= <-]. split; [done|]. split; [|done].
      by rewrite runs_snoc, app_nil_r.
    - intros status Hx.
      by apply (no_exit_extract_and_stitch args (i :: plan) e w' status) in Hx. }
  split; [|split; [exact Hexit|]].
  - unfold exit_conditions. fold detect probe.
    destruct (spawn e detect) as [[r1|s1]|] eqn:H1.
    2:{ rewrite (main_detect_undecodable args e w s1 H1).
        split; [done|]. by intros (? & ? & ? & ? & _). }
    2:{ destruct (main_detect_not_started args e w H1) as [cmd Hm].
        split; [by rewrite Hm|]. by intros (? & ? & ? & ? & _). }
    destruct (parse_silence_log_zip (stderr r1)) as (ss & es & _ & Hp).
    destruct (spawn e probe) as [[r2|s2]|] eqn:H2.
    2:{ rewrite (main_probe_undecodable args e w r1 _ s2 H1 Hp H2).
        split; [done|]. by intros (? & ? & ? & _ & _ & ? & _). }
    2:{ destruct (main_probe_not_started args e w r1 _ H1 Hp H2) as [cmd Hm].
        split; [by rewrite Hm|]. by intros (? & ? & ? & _ & _ & ? & _). }
    destruct (py_float (strip (stdout r2))) as [d|] eqn:Hd; cycle 1.
    { destruct (main_unparsable args e w r1 r2 _ H1 Hp H2 Hd)
        as (w' & Hm & Hf & Hr).
      rewrite Hm. simpl. split; [|done]. intros _. exists r1, r2, (zip ss es).
      repeat split; try done. by left. }
    destruct (main_test args e w r1 r2 _ d H1 Hp H2 Hd) as (w' & Hf & Hr & Hm).
    rewrite Hm.
    destruct (compute_nonsilent_intervals (zip ss es) d default_min_gap)
      as [|i plan] eqn:E.
    + simpl. split; [|done]. intros _. exists r1, r2, (zip ss es).
      repeat split; try done. right. by exists d.
    + split.
      * intros Hx.
        by apply (no_exit_extract_and_stitch args (i :: plan) e w' 1) in Hx.
      * intros (r1' & r2' & silence' & [= <-] & Hp' & [= <-] & Hcase).
        rewrite Hp in Hp'. injection Hp' as <-.
        destruct Hcase as [Hn|(d' & Hd' & Hplan)]; [congruence|].
        rewrite Hd in Hd'. injection Hd' as <-. congruence.
  - destruct (main args e w).1 as [[]|x] eqn:Hm.
    + split; [done|]. split; [done|]. by intros [x Hx].
    + assert (Hx : exit_status (Raise (A:=unit) x) = 1).
      { destruct x as [status| | | |]; try reflexivity.
        simpl. by destruct (Hexit status eq_refl) as [-> _]. }
      rewrite Hx. split; [done|]. split; [|done]. intros _. by exists x.
Qed.

Lemma main_exit_status_witness :
  parse_silence_log scenario_C_log = Some [(zero, of_Z 15)]
  /\ py_float (strip ("15.000000" ++ newline)) = Some (of_Z 15)
  /\ compute_nonsilent_intervals [(zero, of_Z 15)] (of_Z 15) default_min_gap
     = []
  /\ (main sample_args scenario_C_env (World ∅ [])).1 = Raise (SystemExit 1).
Proof.
  assert (Hp : parse_silence_log scenario_C_log = Some [(zero, of_Z 15)])
    by (vm_compute; reflexivity).
  assert (Hd : py_float (strip ("15.000000" ++ newline)) = Some (of_Z 15))
    by (vm_compute; reflexivity).
  assert (Hc : compute_nonsilent_intervals [(zero, of_Z 15)] (of_Z 15)
                 default_min_gap = []) by (vm_compute; reflexivity).
  split; [exact Hp|]. split; [exact Hd|]. split; [exact Hc|].
  apply (proj1 (main_exit_status sample_args scenario_C_env (World ∅ []))).
  exists (CompletedProcess 0 ("15.000000" ++ newline) scenario_C_log),
    (CompletedProcess 0 ("15.000000" ++ newline) scenario_C_log),
    [(zero, of_Z 15)].
  split; [reflexivity|]. split; [exact Hp|]. split; [reflexivity|].
  right. exists (of_Z 15). split; [exact Hd|exact Hc].
Defined.

End MainFacts.

(** * Further properties *)

(** ** The inverter as a filter *)

Section InverterMore.
Import Float64 Float64Facts.
Local Open Scope float64_scope.

Implicit Types (l silence : list interval) (td g p : float).

Lemma nonsilent_from_filter l td g p :
  nonsilent_from l td g p
  = List.filter (long_enough g)
      (zip (p :: map snd l) (map fst l ++ [td])).
Proof.
  revert p. induction l as [|[s e] r IH]; intros p; simpl.
  - unfold long_enough, length_of. simpl. by destruct (td - p >? g).
  - rewrite IH. unfold long_enough at 2, length_of. simpl.
    by destruct (s - p >? g).
Qed.

(** X1.  [compute_nonsilent_intervals] is a filter: the plan is the list of
    candidate spans [(0, s1), (e1, s2), ..., (en, total_duration)], in this
    order, without those whose computed length is not above [min_gap].  It
    never holds more than one span more than there are silences. *)
Theorem compute_nonsilent_intervals_filter silence td g :
  compute_nonsilent_intervals silence td g
  = List.filter (long_enough g) (candidates silence td)
  /\ (length (compute_nonsilent_intervals silence td g)
      <= S (length silence))%nat.
Proof.
  rewrite compute_nonsilent_intervals_from, nonsilent_from_filter.
  split; [reflexivity|].
  etrans; [apply List.filter_length_le|].
  unfold candidates. rewrite length_zip_with.
  cbn [length]. rewrite length_map. apply Nat.le_min_l.
Qed.

Lemma gtb_sub_refl_l x y g : x - y > g -> x <= x.
Proof.
  unfold gtb, sub, leb, SFltb, SFleb.
  float_cases x; try (intros _; reflexivity).
  - float_cases y; float_cases g; discriminate.
  - intros _. unfold SFcompare. cmp_cases; try reflexivity; lia.
  - intros _. unfold SFcompare. cmp_cases; try reflexivity; lia.
Qed.

Lemma nonsilent_from_bounds l td g p :
  chain p l -> Forall (fun i => i.2 <= td) l -> p <= p ->
  Forall (fun a => p <= a.1 /\ a.2 <= td) (nonsilent_from l td g p).
Proof.
  revert p. induction l as [|[s e] r IH]; intros p Hch Htd Hpp; simpl.
  - destruct (td - p >? g) eqn:Hgt; [|constructor].
    apply Forall_singleton. split; [done|]. exact (gtb_sub_refl_l _ _ _ Hgt).
  - destruct Hch as (Hps & Hse & Hch). apply Forall_cons in Htd as [He Htd].
    pose proof (ltb_leb _ _ Hse) as Hse'.
    apply Forall_app. split.
    + destruct (s - p >? g); [|constructor].
      apply Forall_singleton. split; [done|]. exact (leb_trans _ _ _ Hse' He).
    + eapply Forall_impl; [exact (IH e Hch Htd (leb_refl_r _ _ Hse'))|].
      simpl. intros a [Hea Hat]. split; [|done].
      exact (leb_trans _ _ _ Hps (leb_trans _ _ _ Hse' Hea)).
Qed.

(** X2.  For a valid silence report every kept span lies within the file:
    it starts at or after 0 and ends at or before [total_duration],
    whatever [min_gap] is. *)
Theorem keep_plan_within_duration silence td g :
  valid_report silence td = true ->
  Forall (fun a => zero <= a.1 /\ a.2 <= td)
    (compute_nonsilent_intervals silence td g).
Proof.
  intros Hv. rewrite compute_nonsilent_intervals_from.
  destruct (valid_report_chain _ _ Hv) as [Hch Htd].
  exact (nonsilent_from_bounds silence td g zero Hch Htd eq_refl).
Qed.

Lemma keep_plan_within_duration_witness :
  let silence := [(of_Z 5, of_Z 7); (of_Z 20, of_Z 21)] in
  valid_report silence (of_Z 30) = true
  /\ Forall (fun a => zero <= a.1 /\ a.2 <= of_Z 30)
       (compute_nonsilent_intervals silence (of_Z 30) default_min_gap).
Proof.
  intros silence.
  assert (Hv : valid_report silence (of_Z 30) = true) by reflexivity.
  split; [exact Hv|].
  exact (keep_plan_within_duration silence (of_Z 30) default_min_gap Hv).
Defined.

End InverterMore.

(** ** The sign of a decimal *)

Module Float64Sign.
Import Float64 Float64Facts.
Local Open Scope Z_scope.

Lemma shr_1_nonneg mrs : 0 <= shr_m mrs -> 0 <= shr_m (shr_1 mrs).
Proof.
  destruct mrs as [m r s]. simpl.
  destruct m as [|[p|p|]|[p|p|]]; simpl; lia.
Qed.

Lemma iter_shr_1_nonneg p mrs :
  0 <= shr_m mrs -> 0 <= shr_m (SpecFloat.iter_pos shr_1 p mrs).
Proof.
  revert mrs. induction p as [p IH|p IH|]; intros mrs H; simpl.
  - apply IH, IH, shr_1_nonneg, H.
  - apply IH, IH, H.
  - apply shr_1_nonneg, H.
Qed.

Lemma shr_fexp_nonneg m e l :
  0 <= m -> 0 <= shr_m (shr_fexp prec emax m e l).1.
Proof.
  intros H. unfold shr_fexp, shr.
  assert (H0 : 0 <= shr_m (shr_record_of_loc m l)).
  { destruct l as [|[]]; exact H. }
  destruct (fexp prec emax (Zdigits2 m + e) - e); simpl; try exact H0.
  by apply iter_shr_1_nonneg.
Qed.

Lemma round_nearest_even_nonneg m l : 0 <= m -> 0 <= round_nearest_even m l.
Proof.
  intros H. unfold round_nearest_even.
  destruct l as [|[]]; try destruct (Z.even m); lia.
Qed.

(** Rounding a non-negative mantissa with the sign bit off gives [+0.0], a
    positive number or [+inf], never NaN. *)
Lemma binary_round_aux_nonneg m e l :
  0 <= m -> leb zero (binary_round_aux prec emax false m e l) = true.
Proof.
  intros H. unfold binary_round_aux.
  pose proof (shr_fexp_nonneg m e l H) as H1.
  destruct (shr_fexp prec emax m e l) as [mrs' e']. simpl in H1.
  pose proof (shr_fexp_nonneg _ e' loc_Exact
                (round_nearest_even_nonneg _ (loc_of_shr_record mrs') H1)) as H2.
  destruct (shr_fexp prec emax _ e' loc_Exact) as [mrs'' e'']. simpl in H2.
  destruct (shr_m mrs'') as [|q|q]; [reflexivity| |lia].
  by destruct (e'' <=? emax - prec).
Qed.

Lemma of_scientific_nonneg n e10 : leb zero (of_scientific false n e10) = true.
Proof.
  unfold of_scientific. destruct n as [|p|p]; try reflexivity.
  unfold SFdiv, SFdiv_core_binary.
  set (num := Z.pos (if 0 <=? e10 then (p * Z.to_pos (10 ^ e10))%positive else p)).
  set (den := Z.pos (if 0 <=? e10 then 1%positive else Z.to_pos (10 ^ (- e10)))).
  set (e' := Z.min _ _).
  set (m' := match 0 - 0 - e' with Z0 => num | Z.pos _ => _ | Z.neg _ => 0 end).
  assert (Hm : 0 <= m').
  { subst m'. destruct (0 - 0 - e'); [done| |done].
    apply Z.shiftl_nonneg. done. }
  pose proof (Z.div_pos m' den Hm eq_refl) as Hq.
  unfold Z.div in Hq. destruct (Z.div_eucl m' den) as [q r]. simpl in Hq.
  by apply binary_round_aux_nonneg.
Qed.

End Float64Sign.

(** ** What the analyzer extracts *)

Section AnalyzerMore.
Import Float64 Float64Facts Float64Sign PyStr PyFloat Py.
Local Open Scope string_scope.

Lemma stamp_text_float g :
  stamp_text g ->
  exists n e10, py_float g = Some (of_scientific false n e10).
Proof.
  intros (d1 & d2 & point & -> & H1 & Hne & H2 & Hp).
  do 2 eexists. exact (py_float_stamp d1 d2 point H1 Hne H2 Hp).
Qed.

Lemma match_number_sound s g :
  match_number s = Some g -> stamp_text g /\ exists rest, s = g ++ rest.
Proof.
  unfold match_number.
  destruct (take_digits s) as [d1 r1] eqn:E1.
  destruct (take_digits_spec _ _ _ E1) as (H1 & -> & _).
  destruct (is_empty d1) eqn:Hne; [done|].
  assert (Hplain : stamp_text d1).
  { exists d1, "", false. unfold decimal_text. by rewrite append_nil_r. }
  destruct r1 as [|c r2]; [intros [= <-]; split; [done|by exists ""]|].
  destruct (Ascii.eqb c ".") eqn:Hc; cycle 1.
  { intros [= <-]. split; [done|]. by eexists. }
  apply Ascii.eqb_eq in Hc as ->.
  destruct (take_digits r2) as [d2 r3] eqn:E2.
  destruct (take_digits_spec _ _ _ E2) as (H2 & -> & _).
  intros [= <-]. split.
  - by exists d1, d2, true.
  - exists r3. by rewrite !append_assoc.
Qed.

Lemma prefix_split key s :
  String.prefix key s = true -> s = key ++ drop_chars (String.length key) s.
Proof.
  revert s. induction key as [|a key IH]; intros [|b s]; simpl; try done.
  destruct (ascii_dec a b) as [->|]; [|done].
  intros H. rewrite append_cons. f_equal. exact (IH s H).
Qed.

Lemma match_here_sound key s g :
  match_here key s = Some g ->
  stamp_text g
  /\ exists sp rest, s = key ++ sp ++ g ++ rest /\ optional_space sp.
Proof.
  unfold match_here. destruct (String.prefix key s) eqn:Hk; [|done].
  pose proof (prefix_split _ _ Hk) as Hs.
  destruct (drop_chars (String.length key) s) as [|c r]; [done|].
  cbv zeta. rewrite Hs. clear Hs Hk.
  assert (Hnone : match_number (String c r) = Some g ->
            stamp_text g
            /\ exists sp rest, key ++ String c r = key ++ sp ++ g ++ rest
                               /\ optional_space sp).
  { intros [Hg [rest Hr]]%match_number_sound. split; [done|].
    exists "", rest. rewrite Hr. split; [done|by left]. }
  destruct (is_space c) eqn:Hc; [|exact Hnone].
  destruct (match_number r) as [g'|] eqn:E; [|exact Hnone].
  intros [= <-]. apply match_number_sound in E as [Hg [rest Hr]].
  split; [done|]. exists (String c ""), rest. rewrite Hr.
  split; [done|]. right. by exists c.
Qed.

Lemma re_search_sound key s g :
  re_search key s = Some g ->
  stamp_text g
  /\ exists pre sp rest, s = pre ++ key ++ sp ++ g ++ rest /\ optional_space sp.
Proof.
  assert (Hhere : forall s, match_here key s = Some g ->
            stamp_text g
            /\ exists pre sp rest, s = pre ++ key ++ sp ++ g ++ rest
                                   /\ optional_space sp).
  { intros s0 (Hg & sp & rest & Hs & Hsp)%match_here_sound.
    split; [done|]. by exists "", sp, rest. }
  induction s as [|c s IH]; simpl.
  - destruct (match_here key "") eqn:E; [|done]. intros [= <-]. by apply Hhere.
  - destruct (match_here key (String c s)) eqn:E.
    + intros [= <-]. by apply Hhere.
    + intros (Hg & pre & sp & rest & -> & Hsp)%IH. split; [done|].
      by exists (String c pre), sp, rest.
Qed.

(** X3.  What one marker of one line adds: nothing, or one timestamp.  The
    timestamp is read from an unsigned decimal (digits, possibly a point and
    digits) that follows the colon of the marker directly or after one white
    space character; it is the value of that decimal and never negative nor
    NaN.  A sign or an exponent is never part of what is read. *)
Theorem scan_marker_sound name line stamps stamps' :
  scan_marker name line stamps = Some stamps' ->
  stamps' = stamps
  \/ exists x pre sp g rest,
       stamps' = (stamps ++ [x])%list
       /\ line = pre ++ (name ++ ":") ++ sp ++ g ++ rest
       /\ optional_space sp /\ stamp_text g
       /\ py_float g = Some x /\ Float64.leb zero x = true.
Proof.
  unfold scan_marker. destruct (contains name line); [|intros [= <-]; by left].
  destruct (re_search (name ++ ":") line) as [g|] eqn:E;
    [|intros [= <-]; by left].
  destruct (re_search_sound _ _ _ E) as (Hg & pre & sp & rest & Hl & Hsp).
  destruct (stamp_text_float g Hg) as (n & e10 & Hf).
  rewrite Hf. simpl. intros [= <-]. right.
  exists (of_scientific false n e10), pre, sp, g, rest.
  repeat split; try done. apply of_scientific_nonneg.
Qed.

Lemma scan_marker_sound_witness :
  let line := "[silencedetect @ 0x5581] silence_start: 29.5" in
  scan_marker "silence_start" line [] = Some [of_decimal 295 1]
  /\ ([of_decimal 295 1] = []
      \/ exists x pre sp g rest,
           [of_decimal 295 1] = ([] ++ [x])%list
           /\ line = pre ++ ("silence_start" ++ ":") ++ sp ++ g ++ rest
           /\ optional_space sp /\ stamp_text g
           /\ py_float g = Some x /\ Float64.leb zero x = true).
Proof.
  intros line.
  assert (H : scan_marker "silence_start" line [] = Some [of_decimal 295 1])
    by (vm_compute; reflexivity).
  split; [exact H|]. exact (scan_marker_sound _ _ _ _ H).
Defined.

(** *** A well-formed marker line *)

Lemma prefix_app key x : String.prefix key (key ++ x) = true.
Proof.
  induction key as [|a key IH]; simpl; [by destruct x|].
  by destruct (ascii_dec a a).
Qed.

Lemma drop_chars_app key x : drop_chars (String.length key) (key ++ x) = x.
Proof. induction key as [|a key IH]; simpl; [by destruct x|done]. Qed.

Lemma contains_app name pre s :
  String.prefix name s = true -> contains name (pre ++ s) = true.
Proof.
  intros H. induction pre as [|c pre IH].
  - change ("" ++ s) with s. destruct s; cbn [contains]; by rewrite H.
  - rewrite append_cons. cbn [contains]. by rewrite IH, orb_true_r.
Qed.

Lemma re_search_skip key pre s :
  starts_in key pre s = false -> re_search key (pre ++ s) = re_search key s.
Proof.
  induction pre as [|c pre IH]; [done|]. cbn [starts_in].
  intros [Hk Hrest]%orb_false_iff. rewrite append_cons in *.
  cbn [re_search]. unfold match_here at 1. rewrite Hk. by apply IH.
Qed.

Lemma re_search_here key s g :
  match_here key s = Some g -> re_search key s = Some g.
Proof. intros H. destruct s; simpl; by rewrite H. Qed.

Lemma match_number_complete d1 d2 point rest :
  all_chars is_digit d1 = true -> is_empty d1 = false ->
  all_chars is_digit d2 = true -> (point = false -> d2 = "") ->
  ends_number rest = true ->
  match_number (decimal_text d1 d2 point ++ rest)
  = Some (decimal_text d1 d2 point).
Proof.
  intros H1 Hne H2 Hp Hrest. unfold match_number, decimal_text.
  rewrite append_assoc.
  assert (Hr : match rest with
               | "" => True
               | String c _ => is_digit c = false /\ Ascii.eqb c "." = false
               end).
  { destruct rest as [|c rest]; [done|]. simpl in Hrest.
    unfold stamp_char in Hrest.
    by apply negb_true_iff, orb_false_iff in Hrest. }
  destruct point.
  - rewrite (take_digits_app d1); [|done|done]. rewrite Hne.
    change (("." ++ d2) ++ rest) with (String "." (d2 ++ rest)).
    cbv beta iota. rewrite Ascii.eqb_refl.
    rewrite (take_digits_app d2 rest); [done|done|].
    destruct rest; [done|]. by destruct Hr.
  - change ("" ++ rest) with rest.
    rewrite (take_digits_app d1 rest); [|done|].
    + rewrite Hne, append_nil_r. destruct rest as [|c rest]; [done|].
      by destruct Hr as [_ ->].
    + destruct rest; [done|]. by destruct Hr.
Qed.

Lemma decimal_text_head d1 d2 point rest :
  all_chars is_digit d1 = true -> is_empty d1 = false ->
  exists c r, decimal_text d1 d2 point ++ rest = String c r
              /\ is_digit c = true.
Proof.
  intros H1 Hne. destruct d1 as [|c d1]; [done|].
  simpl in H1. apply andb_true_iff in H1 as [Hc _].
  unfold decimal_text. rewrite !append_cons. by do 2 eexists.
Qed.

(** X4.  A line on which the marker first occurs followed by its colon, at
    most one white space character and an unsigned decimal contributes
    exactly the value of that decimal, whatever precedes the marker and
    whatever follows the decimal (the bar and the duration of an end line,
    or an exponent, which is thereby lost). *)
Theorem marker_line_stamp name pre sp d1 d2 point rest stamps :
  let number := decimal_text d1 d2 point in
  starts_in (name ++ ":") pre ((name ++ ":") ++ sp ++ number ++ rest) = false ->
  optional_space sp ->
  all_chars is_digit d1 = true -> is_empty d1 = false ->
  all_chars is_digit d2 = true -> (point = false -> d2 = "") ->
  ends_number rest = true ->
  scan_marker name (pre ++ (name ++ ":") ++ sp ++ number ++ rest) stamps
  = Some (stamps ++ [of_scientific false (Z_of_digits (d1 ++ d2))
                       (- Z.of_nat (String.length d2))])%list.
Proof.
  intros number Hpre Hsp H1 Hne H2 Hp Hrest. unfold scan_marker.
  rewrite contains_app; [|by rewrite append_assoc, prefix_app].
  rewrite (re_search_skip _ _ _ Hpre).
  assert (Hm : match_number (number ++ rest) = Some number)
    by exact (match_number_complete d1 d2 point rest H1 Hne H2 Hp Hrest).
  assert (Hhere : match_here (name ++ ":") ((name ++ ":") ++ sp ++ number ++ rest)
                  = Some number).
  { unfold match_here. rewrite prefix_app, drop_chars_app. cbv zeta.
    destruct Hsp as [->|(c & Hc & ->)].
    - change ("" ++ number ++ rest) with (number ++ rest).
      destruct (decimal_text_head d1 d2 point rest H1 Hne) as (c & r & E & Hc).
      fold number in E. rewrite E in *.
      by rewrite (digit_not_space c Hc).
    - rewrite append_cons. change ("" ++ number ++ rest) with (number ++ rest).
      by rewrite Hc, Hm. }
  rewrite (re_search_here _ _ _ Hhere).
  unfold number, decimal_text.
  by rewrite (py_float_stamp d1 d2 point H1 Hne H2 Hp).
Qed.

Lemma marker_line_stamp_witness :
  scan_marker "silence_end"
    ("[silencedetect @ 0x5581] " ++ ("silence_end" ++ ":") ++ " "
     ++ decimal_text "7" "02" true ++ " | silence_duration: 2.02") [of_Z 3]
  = Some [of_Z 3; of_decimal 702 2].
Proof.
  apply (marker_line_stamp "silence_end" "[silencedetect @ 0x5581] " " "
           "7" "02" true " | silence_duration: 2.02" [of_Z 3]);
    try reflexivity.
  - right. by exists " "%char.
  - discriminate.
Defined.

(** *** The report as a whole *)

Lemma scan_marker_keeps name line stamps stamps' :
  Forall (fun x => Float64.leb zero x = true) stamps ->
  scan_marker name line stamps = Some stamps' ->
  Forall (fun x => Float64.leb zero x = true) stamps'
  /\ (length stamps' <= S (length stamps))%nat.
Proof.
  intros Hall [->|(x & _ & _ & _ & _ & -> & _ & _ & _ & _ & Hx)]%scan_marker_sound.
  - split; [done|lia].
  - split; [by apply Forall_app; split; [|apply Forall_singleton]|].
    rewrite length_app. simpl. lia.
Qed.

Lemma scan_lines_keeps lines starts ends starts' ends' :
  Forall (fun x => Float64.leb zero x = true) starts ->
  Forall (fun x => Float64.leb zero x = true) ends ->
  scan_lines lines starts ends = Some (starts', ends') ->
  Forall (fun x => Float64.leb zero x = true) starts'
  /\ Forall (fun x => Float64.leb zero x = true) ends'
  /\ (length starts' <= length starts + length lines)%nat
  /\ (length ends' <= length ends + length lines)%nat.
Proof.
  revert starts ends. induction lines as [|line rest IH]; intros starts ends Hs He.
  - intros [= <- <-]. repeat split; try done; simpl; lia.
  - simpl.
    destruct (scan_marker "silence_start" line starts) as [s1|] eqn:E1; [|done].
    destruct (scan_marker "silence_end" line ends) as [e1|] eqn:E2; [|done].
    simpl.
    destruct (scan_marker_keeps _ _ _ _ Hs E1) as [Hs1 Hl1].
    destruct (scan_marker_keeps _ _ _ _ He E2) as [He1 Hl2].
    intros (? & ? & ? & ?)%IH; [|done|done]. repeat split; try done; lia.
Qed.

(** X5.  [detect_silence] returns a report exactly when the detector has
    run and its output is text.  The timestamps of the report are then all
    non-negative numbers (never NaN: the patterns read no sign and no
    letter), and there is at most one interval per line of the log.  When
    the output is not text, [subprocess.run] raises [UnicodeDecodeError],
    and when the program cannot be started it raises [OSError]; nothing
    catches either. *)
Theorem detect_silence_report e w input_file noise duration audio_track :
  let cmd := detect_cmd input_file noise duration audio_track in
  match spawn e cmd with
  | Some (Decoded r) =>
      exists intervals w',
        detect_silence input_file noise duration audio_track e w
        = (Return intervals, w')
        /\ Forall (fun i : interval =>
                     Float64.leb zero i.1 = true /\ Float64.leb zero i.2 = true)
             intervals
        /\ (length intervals <= length (splitlines (stderr r)))%nat
  | Some (Undecodable _) =>
      (detect_silence input_file noise duration audio_track e w).1
      = Raise UnicodeDecodeError
  | None =>
      (detect_silence input_file noise duration audio_track e w).1
      = Raise (OSError cmd)
  end.
Proof.
  intros cmd. subst cmd.
  destruct (spawn e (detect_cmd input_file noise duration audio_track))
    as [[r|status]|] eqn:Hr.
  2:{ exact (detect_silence_undecodable e w _ _ _ _ status Hr). }
  2:{ exact (detect_silence_not_started e w _ _ _ _ Hr). }
  destruct (parse_silence_log_zip (stderr r)) as (starts & ends & Hscan & Hparse).
  exists (zip starts ends). eexists.
  split; [exact (detect_silence_run e w _ _ _ _ r _ Hr Hparse)|].
  destruct (scan_lines_keeps _ _ _ _ _ (Forall_nil_2 _) (Forall_nil_2 _) Hscan)
    as (Hs & He & Hls & _).
  split.
  - apply Forall_forall. intros [s t] Hin.
    apply elem_of_zip_with in Hin as (s' & t' & [= -> ->] & Hs' & Ht').
    rewrite Forall_forall in Hs, He. split; [by apply Hs|by apply He].
  - rewrite length_zip_with. simpl in Hls. lia.
Qed.

Lemma detect_silence_report_witness :
  let e := Env (fun _ => Some (Decoded (CompletedProcess 1 "" sample_log))) "/tmp/tmpq" in
  exists intervals w',
    detect_silence "in.mp4" "-50dB" "0.5" 0 e (World ∅ [])
    = (Return intervals, w')
    /\ (length intervals <= length (splitlines sample_log))%nat.
Proof.
  intros e.
  destruct (detect_silence_report e (World ∅ []) "in.mp4" "-50dB" "0.5" 0)
    as (intervals & w' & Hrun & _ & Hlen).
  exists intervals, w'. split; [exact Hrun|exact Hlen].
Defined.

End AnalyzerMore.

(** ** Failure and success of the run *)

Section RunMore.
Import Float64 PyStr PyFloat Py.
Local Open Scope string_scope.

Lemma subprocess_run_failed cmd e w x :
  spawn e cmd = Some x -> status_of x <> 0%Z ->
  subprocess_run cmd false true e w
  = (Raise (CalledProcessError (status_of x) cmd),
     World (files w) (trace w ++ [Run cmd])).
Proof.
  intros Hs Hx. unfold subprocess_run. rewrite Hs. cbn [uncaptured returncode].
  apply Z.eqb_neq in Hx. by rewrite Hx.
Qed.

Lemma cut_loop_failed e input_file temp_dir reencode :
  forall (plan : list interval) (k idx : nat) (acc : list string) (w : world)
         cmd x,
  let cmds := imap (fun i iv =>
                      segment_cmd input_file temp_dir reencode (idx + i) iv)
                plan in
  succeed_upto e cmds k ->
  cmds !! k = Some cmd -> spawn e cmd = Some x -> status_of x <> 0%Z ->
  exists w1,
    cut_loop input_file temp_dir reencode idx plan acc e w
    = (Raise (CalledProcessError (status_of x) cmd), w1)
    /\ runs w1 = (runs w ++ take (S k) cmds)%list.
Proof.
  induction plan as [|[s t] rest IH]; intros k idx acc [fs tr] cmd r cmds
    Hup Hk Hr Hne; [done|].
  assert (E : imap (fun i iv => segment_cmd input_file temp_dir reencode
                                  (S idx + i) iv) rest
              = imap ((fun i iv => segment_cmd input_file temp_dir reencode
                                     (idx + i) iv) ∘ S) rest).
  { apply imap_ext. intros i x _. simpl. f_equal. lia. }
  subst cmds. cbn [imap] in *. rewrite <- E in *. rewrite Nat.add_0_r in *.
  set (c0 := segment_cmd input_file temp_dir reencode idx (s, t)) in *.
  cbn [cut_loop].
  change (cut_cmd input_file reencode s t (path_join temp_dir (segment_name idx)))
    with c0.
  rewrite bind_eq, print_eq. cbv beta iota. rewrite bind_eq.
  destruct k as [|k].
  - injection Hk as <-.
    rewrite (subprocess_run_failed _ _ _ r Hr Hne). cbv beta iota.
    eexists. split; [reflexivity|]. cbn [files trace take].
    rewrite !runs_snoc. by rewrite take_0, app_nil_r.
  - destruct (Hup 0%nat _ (Nat.lt_0_succ k) eq_refl) as (r0 & Hr0 & H0).
    rewrite (subprocess_run_ok _ _ _ r0 Hr0 H0). cbv beta iota.
    match goal with
    | |- context [cut_loop _ _ _ (S idx) rest ?a e ?w0] =>
        destruct (IH k (S idx) a w0 cmd r) as (w1 & Hrun & Hruns)
    end; try done.
    { intros j c Hj Hc. apply (Hup (S j) c); [lia|exact Hc]. }
    exists w1. rewrite Hrun, Hruns. cbn [files trace].
    rewrite !runs_snoc, app_nil_r, <- app_assoc. done.
Qed.

(** X6.  [cut_video_segments] stops at the first extraction that exits with
    a non-zero status: when the commands of the intervals before ordinal
    [k] succeed and the one of ordinal [k] fails, it raises
    [CalledProcessError] for that command, with its status, the commands of
    the ordinals 0 to [k] are the only ones started, and no segment list is
    returned. *)
Theorem cut_video_segments_fail_fast e w input_file (plan : list interval)
    temp_dir reencode k cmd x :
  let cmds := imap (segment_cmd input_file temp_dir reencode) plan in
  succeed_upto e cmds k ->
  cmds !! k = Some cmd -> spawn e cmd = Some x -> status_of x <> 0%Z ->
  exists w1,
    cut_video_segments input_file plan temp_dir reencode e w
    = (Raise (CalledProcessError (status_of x) cmd), w1)
    /\ runs w1 = (runs w ++ take (S k) cmds)%list.
Proof.
  intros cmds Hup Hk Hr Hne.
  exact (cut_loop_failed e input_file temp_dir reencode plan k 0 [] w cmd x
           Hup Hk Hr Hne).
Qed.

Lemma cut_video_segments_fail_fast_witness :
  let plan := [(zero, of_Z 5); (of_Z 7, of_Z 20); (of_Z 21, of_Z 30)] in
  let cmds := imap (segment_cmd "in.mp4" "/tmp/tmpq" false) plan in
  succeed_upto second_cut_fails cmds 1
  /\ exists w1,
       (cut_video_segments "in.mp4" plan "/tmp/tmpq" false second_cut_fails
          (World ∅ [])).1
       = Raise (CalledProcessError 1
                  (segment_cmd "in.mp4" "/tmp/tmpq" false 1 (of_Z 7, of_Z 20)))
       /\ runs w1 = take 2 cmds.
Proof.
  intros plan cmds.
  assert (Hup : succeed_upto second_cut_fails cmds 1).
  { intros j cmd Hj Hc. destruct j as [|j]; [|lia].
    injection Hc as <-. eexists. split; reflexivity. }
  split; [exact Hup|].
  destruct (cut_video_segments_fail_fast second_cut_fails (World ∅ []) "in.mp4"
              plan "/tmp/tmpq" false 1
              (segment_cmd "in.mp4" "/tmp/tmpq" false 1 (of_Z 7, of_Z 20))
              (Decoded (CompletedProcess 1 ("30.0" ++ newline) sample_log))
              Hup eq_refl eq_refl) as (w1 & Hrun & Hruns); [done|].
  exists w1. rewrite Hrun. split; [reflexivity|exact Hruns].
Defined.

(** *** The whole run when every command succeeds *)

(** X7.  When both probes run, the duration is accepted by [float], the
    keep plan is not empty and every extraction and the concatenation
    succeed, [main] returns, and the commands started are, in this order:
    the silence detection, the duration probe, one extraction per interval
    of the plan in plan order, and the concatenation on the manifest of the
    temporary directory into the output file. *)
Theorem main_success args e w r1 r2 silence d :
  let detect := detect_cmd (arg_input args) (arg_noise args)
                  (arg_duration args) (arg_audio_track args) in
  let probe := probe_cmd (arg_input args) in
  let plan := compute_nonsilent_intervals silence d default_min_gap in
  let temp_dir := fresh_dir e in
  all_succeed e ->
  spawn e detect = Some (Decoded r1) ->
  parse_silence_log (stderr r1) = Some silence ->
  spawn e probe = Some (Decoded r2) ->
  py_float (strip (stdout r2)) = Some d ->
  plan <> [] ->
  exists w',
    main args e w = (Return tt, w')
    /\ runs w'
       = (runs w ++ [detect; probe]
          ++ imap (segment_cmd (arg_input args) temp_dir (arg_reencode args)) plan
          ++ [concat_cmd (path_join temp_dir "segments.txt") (arg_output args)])%list.
Proof.
  intros detect probe plan temp_dir Hok H1 Hp H2 Hd Hplan.
  destruct (main_test args e w r1 r2 silence d H1 Hp H2 Hd)
    as (w0 & Hf & Hr & Hm).
  fold plan in Hm. rewrite Hm.
  destruct plan as [|i plan'] eqn:E; [done|]. rewrite <- E in *. clear Hm.
  rewrite bind_eq. unfold with_temporary_directory. fold temp_dir.
  rewrite bind_eq.
  destruct (cut_loop_ok e (arg_input args) temp_dir (arg_reencode args) Hok
              plan 0 []
              (World (files w0) (trace w0 ++ [MkDTemp temp_dir])))
    as (w1 & Hcut & Hruns1 & _).
  unfold cut_video_segments. rewrite Hcut. cbv beta iota.
  rewrite (concat_segments_ok e _ _ _ w1 Hok). cbv beta iota zeta.
  rewrite print_eq. eexists. split; [reflexivity|].
  unfold runs in *. destruct w1 as [fs1 t1], w0 as [fs0 t0].
  cbn [files trace] in *. rewrite !omap_app in *. rewrite Hruns1, Hr.
  cbn [omap list_omap app]. rewrite !app_nil_r, <- !app_assoc.
  reflexivity.
Qed.

Lemma main_success_witness :
  let e := Env (fun _ => Some (Decoded (CompletedProcess 0 ("30.0" ++ newline) sample_log)))
             "/tmp/tmpq" in
  let silence := [(of_Z 5, of_Z 7); (of_Z 20, of_Z 21)] in
  all_succeed e
  /\ parse_silence_log sample_log = Some silence
  /\ py_float (strip ("30.0" ++ newline)) = Some (of_Z 30)
  /\ compute_nonsilent_intervals silence (of_Z 30) default_min_gap <> []
  /\ exists w', main sample_args e (World ∅ []) = (Return tt, w').
Proof.
  intros e silence.
  assert (Hok : all_succeed e).
  { intros cmd. eexists. split; reflexivity. }
  assert (Hp : parse_silence_log sample_log = Some silence)
    by (vm_compute; reflexivity).
  assert (Hd : py_float (strip ("30.0" ++ newline)) = Some (of_Z 30))
    by (vm_compute; reflexivity).
  assert (Hplan : compute_nonsilent_intervals silence (of_Z 30) default_min_gap
                  <> []) by (vm_compute; discriminate).
  split; [exact Hok|]. split; [exact Hp|]. split; [exact Hd|].
  split; [exact Hplan|].
  destruct (main_success sample_args e (World ∅ [])
              (CompletedProcess 0 ("30.0" ++ newline) sample_log)
              (CompletedProcess 0 ("30.0" ++ newline) sample_log)
              silence (of_Z 30) Hok eq_refl Hp eq_refl Hd Hplan)
    as (w' & Hm & _).
  by exists w'.
Defined.

(** *** A failed extraction ends the run *)

(** X11.  When an extraction fails, [main] ends with the
    [CalledProcessError] of that command: the later extractions and the
    concatenation are never started, so no output is assembled from a part
    of the plan, and the last thing the run does is to remove the temporary
    directory. *)
Theorem main_extraction_failure args e w r1 r2 silence d k cmd x :
  let detect := detect_cmd (arg_input args) (arg_noise args)
                  (arg_duration args) (arg_audio_track args) in
  let probe := probe_cmd (arg_input args) in
  let plan := compute_nonsilent_intervals silence d default_min_gap in
  let cmds := imap (segment_cmd (arg_input args) (fresh_dir e)
                      (arg_reencode args)) plan in
  spawn e detect = Some (Decoded r1) ->
  parse_silence_log (stderr r1) = Some silence ->
  spawn e probe = Some (Decoded r2) ->
  py_float (strip (stdout r2)) = Some d ->
  succeed_upto e cmds k ->
  cmds !! k = Some cmd -> spawn e cmd = Some x -> status_of x <> 0%Z ->
  exists w',
    main args e w = (Raise (CalledProcessError (status_of x) cmd), w')
    /\ runs w' = (runs w ++ [detect; probe] ++ take (S k) cmds)%list
    /\ last (trace w') = Some (RmTree (fresh_dir e)).
Proof.
  intros detect probe plan cmds H1 Hp H2 Hd Hup Hk Hr Hne.
  destruct (main_test args e w r1 r2 silence d H1 Hp H2 Hd)
    as (w0 & Hf & Hr0 & Hm).
  subst cmds plan.
  remember (compute_nonsilent_intervals silence d default_min_gap) as plan
    eqn:Eplan.
  assert (Hex : exists i l, plan = i :: l).
  { clear -Hk. destruct plan; [done|eauto]. }
  destruct Hex as (i & l & Ei).
  rewrite Ei in Hm. cbv iota in Hm. rewrite <- Ei in Hm. rewrite Hm. clear Hm.
  rewrite bind_eq. unfold with_temporary_directory. rewrite bind_eq.
  destruct (cut_loop_failed e (arg_input args) (fresh_dir e) (arg_reencode args)
              plan k 0 []
              (World (files w0) (trace w0 ++ [MkDTemp (fresh_dir e)]))
              cmd x Hup Hk Hr Hne) as (w1 & Hcut & Hruns1).
  unfold cut_video_segments. rewrite Hcut. cbv beta iota.
  eexists. split; [reflexivity|].
  unfold runs in *. destruct w1 as [fs1 t1], w0 as [fs0 t0].
  cbn [files trace] in *. split.
  - rewrite !omap_app in *. rewrite Hruns1, Hr0.
    cbn [omap list_omap app]. by rewrite !app_nil_r, <- !app_assoc.
  - apply last_snoc.
Qed.

Lemma main_extraction_failure_witness :
  let silence := [(of_Z 5, of_Z 7); (of_Z 20, of_Z 21)] in
  let r := CompletedProcess 0 ("30.0" ++ newline) sample_log in
  let bad := Decoded (CompletedProcess 1 ("30.0" ++ newline) sample_log) in
  let cmd := segment_cmd "in.mp4" "/tmp/tmpq" false 1 (of_Z 7, of_Z 20) in
  parse_silence_log (stderr r) = Some silence
  /\ py_float (strip (stdout r)) = Some (of_Z 30)
  /\ spawn second_cut_fails cmd = Some bad /\ status_of bad = 1%Z
  /\ (main sample_args second_cut_fails (World ∅ [])).1
     = Raise (CalledProcessError 1 cmd).
Proof.
  intros silence r bad cmd.
  assert (Hp : parse_silence_log (stderr r) = Some silence)
    by (vm_compute; reflexivity).
  assert (Hd : py_float (strip (stdout r)) = Some (of_Z 30))
    by (vm_compute; reflexivity).
  split; [exact Hp|]. split; [exact Hd|]. split; [reflexivity|].
  split; [reflexivity|].
  destruct (main_extraction_failure sample_args second_cut_fails (World ∅ [])
              r r silence (of_Z 30) 1 cmd bad eq_refl Hp eq_refl Hd)
    as (w' & Hm & _).
  - intros j c Hj Hc. destruct j as [|j]; [|lia].
    vm_compute in Hc. injection Hc as <-. eexists. split; reflexivity.
  - vm_compute. reflexivity.
  - reflexivity.
  - discriminate.
  - by rewrite Hm.
Defined.

(** *** What is left on the disk *)

Lemma writes_below_ret d {A} (a : A) : writes_below d (mret a).
Proof. intros e w path c H. by left. Qed.

Lemma writes_below_bind d {A B} (m : M A) (k : A -> M B) :
  writes_below d m -> (forall a, writes_below d (k a)) ->
  writes_below d (m ≫= k).
Proof.
  intros Hm Hk e w path c. rewrite bind_eq.
  specialize (Hm e w path). destruct (m e w) as [[a|x] w1]; simpl in *.
  - intros [H|H]%Hk; [by apply Hm|by right].
  - apply Hm.
Qed.

Lemma writes_below_print d line : writes_below d (print line).
Proof. intros e w path c H. by left. Qed.

Lemma writes_below_subprocess_run d cmd text check :
  writes_below d (subprocess_run cmd text check).
Proof.
  intros e w path c. unfold subprocess_run.
  destruct (spawn e cmd) as [x|]; [|by left].
  destruct (if text then captured x else Some (uncaptured x)) as [r|];
    [|by left].
  destruct (check && negb (returncode r =? 0)%Z); by left.
Qed.

Lemma writes_below_write_file d path content :
  String.prefix (d ++ "/") path = true ->
  writes_below d (write_file path content).
Proof.
  intros Hp e w path' c. unfold write_file. cbn [snd files].
  destruct (decide (path = path')) as [<-|Hne]; [by right|].
  rewrite lookup_insert_ne by done. by left.
Qed.

Lemma writes_below_cut_loop d input_file temp_dir reencode idx plan acc :
  writes_below d (cut_loop input_file temp_dir reencode idx plan acc).
Proof.
  revert idx acc. induction plan as [|[s t] rest IH]; intros idx acc.
  - apply writes_below_ret.
  - apply writes_below_bind; [apply writes_below_print|intros _].
    apply writes_below_bind; [apply writes_below_subprocess_run|intros _].
    apply IH.
Qed.

Lemma proper_dir_join d b :
  proper_dir d = true -> String.prefix "/" b = false ->
  String.prefix (d ++ "/") (path_join d b) = true.
Proof.
  unfold proper_dir, path_join.
  intros [Hne Hsl]%andb_true_iff Hb. rewrite Hb.
  apply negb_true_iff in Hne, Hsl. rewrite Hne, Hsl. simpl.
  rewrite <- append_assoc. apply prefix_app.
Qed.

Lemma writes_below_concat_segments d segment_files output_file :
  proper_dir d = true ->
  writes_below d (concat_segments segment_files output_file d).
Proof.
  intros Hd. unfold concat_segments.
  apply writes_below_bind;
    [by apply writes_below_write_file, proper_dir_join|intros _].
  apply writes_below_bind; [apply writes_below_print|intros _].
  apply writes_below_bind; [apply writes_below_subprocess_run|intros _].
  apply writes_below_ret.
Qed.

Lemma leaves_no_file_bind {A B} (m : M A) (k : A -> M B) :
  leaves_no_file m -> (forall a, leaves_no_file (k a)) ->
  leaves_no_file (m ≫= k).
Proof.
  intros Hm Hk e w path c Hd. rewrite bind_eq.
  specialize (Hm e w path c Hd). destruct (m e w) as [[a|x] w1]; simpl in *.
  - intros H. by apply Hm, (Hk a e w1).
  - apply Hm.
Qed.

Lemma leaves_no_file_ret {A} (a : A) : leaves_no_file (mret a).
Proof. by intros e w path c _ H. Qed.

Lemma leaves_no_file_raise {A} x : leaves_no_file (raise x : M A).
Proof. by intros e w path c _ H. Qed.

Lemma leaves_no_file_print line : leaves_no_file (print line).
Proof. by intros e w path c _ H. Qed.

Lemma leaves_no_file_subprocess_run cmd text check :
  leaves_no_file (subprocess_run cmd text check).
Proof.
  intros e w path c _. unfold subprocess_run.
  destruct (spawn e cmd) as [x|]; [|done].
  destruct (if text then captured x else Some (uncaptured x)) as [r|]; [|done].
  by destruct (check && negb (returncode r =? 0)%Z).
Qed.

Lemma leaves_no_file_for_each {A} (xs : list A) (show : A -> text) :
  leaves_no_file (for_each xs (fun x => print (show x))).
Proof. intros e w path c _. by rewrite for_each_print. Qed.

Lemma leaves_no_file_with_temporary_directory {A} (body : string -> M A) :
  (forall d, proper_dir d = true -> writes_below d (body d)) ->
  leaves_no_file (with_temporary_directory body).
Proof.
  intros Hb e w path c Hd. unfold with_temporary_directory.
  specialize (Hb (fresh_dir e) Hd e
                (World (files w) (trace w ++ [MkDTemp (fresh_dir e)])) path c).
  destruct (body _ _ _) as [o w1]. cbn [snd files] in *.
  intros [H Hp]%map_lookup_filter_Some. cbn [fst] in Hp.
  destruct (Hb H) as [H0|H0]; [done|congruence].
Qed.

(** X8.  However [main] ends, by a return, by [sys.exit] or by the
    exception of a failed command, it leaves no file of its own behind:
    every file that exists afterwards existed before with the same content.
    The manifest, the only file the script writes itself, goes with the
    temporary directory. *)
Theorem main_leaves_no_file args e w path c :
  proper_dir (fresh_dir e) = true ->
  files (main args e w).2 !! path = Some c -> files w !! path = Some c.
Proof.
  revert e w path c. change (leaves_no_file (main args)).
  unfold main. cbv zeta.
  apply leaves_no_file_bind.
  { unfold detect_silence. cbv zeta.
    apply leaves_no_file_bind; [apply leaves_no_file_print|intros _].
    apply leaves_no_file_bind; [apply leaves_no_file_subprocess_run|intros r].
    destruct (parse_silence_log (stderr r));
      [apply leaves_no_file_ret|apply leaves_no_file_raise]. }
  intros silence.
  apply leaves_no_file_bind; [apply leaves_no_file_print|intros _].
  apply leaves_no_file_bind; [apply leaves_no_file_for_each|intros _].
  apply leaves_no_file_bind.
  { unfold get_video_duration.
    apply leaves_no_file_bind; [apply leaves_no_file_subprocess_run|intros r].
    destruct (py_float (strip (stdout r))); [apply leaves_no_file_ret|].
    apply leaves_no_file_bind; [apply leaves_no_file_print|intros _].
    apply leaves_no_file_raise. }
  intros d.
  apply leaves_no_file_bind; [apply leaves_no_file_print|intros _].
  apply leaves_no_file_bind; [apply leaves_no_file_print|intros _].
  apply leaves_no_file_bind; [apply leaves_no_file_for_each|intros _].
  destruct (compute_nonsilent_intervals silence d default_min_gap) as [|i plan].
  { apply leaves_no_file_bind; [apply leaves_no_file_print|intros _].
    apply leaves_no_file_raise. }
  apply leaves_no_file_bind; [|intros _; apply leaves_no_file_print].
  apply leaves_no_file_with_temporary_directory. intros dir Hdir.
  apply writes_below_bind; [apply writes_below_cut_loop|intros segs].
  by apply writes_below_concat_segments.
Qed.

Lemma main_leaves_no_file_witness :
  let e := Env (fun _ => Some (Decoded (CompletedProcess 0 ("30.0" ++ newline) sample_log)))
             "/tmp/tmpq" in
  let w := World {["/tmp/tmpq/segments.txt" := "old"; "notes.txt" := "keep"]} [] in
  proper_dir (fresh_dir e) = true
  /\ files (main sample_args e w).2 !! "notes.txt" = Some "keep"
  /\ files w !! "notes.txt" = Some "keep".
Proof.
  intros e w.
  assert (Hd : proper_dir (fresh_dir e) = true) by reflexivity.
  assert (H : files (main sample_args e w).2 !! "notes.txt" = Some "keep")
    by (vm_compute; reflexivity).
  split; [exact Hd|]. split; [exact H|].
  exact (main_leaves_no_file sample_args e w "notes.txt" "keep" Hd H).
Defined.

End RunMore.

(** ** The two other probes *)

Section ProbeMore.
Import Float64 PyStr PyFloat Py.
Local Open Scope string_scope.

Lemma splitlines_unlines (ls : list string) :
  Forall (fun l => one_line l = true) ls -> splitlines (unlines ls) = ls.
Proof.
  induction 1 as [|l ls Hl _ IH]; [done|].
  change (unlines (l :: ls)) with (l ++ newline ++ unlines ls).
  by rewrite splitlines_line, IH.
Qed.

(** X9.  [get_audio_track_count] counts the lines of the probe's output
    that hold something else than white space: blank lines do not count,
    and the exit status of the probe is not looked at. *)
Theorem get_audio_track_count_lines e w input_file r (ls : list string) :
  spawn e (count_cmd input_file) = Some (Decoded r) ->
  stdout r = unlines ls -> Forall (fun l => one_line l = true) ls ->
  get_audio_track_count input_file e w
  = (Return (length (List.filter (fun l => negb (is_empty (strip l))) ls)),
     World (files w) (trace w ++ [Run (count_cmd input_file)])).
Proof.
  intros Hr Hout Hls. unfold get_audio_track_count.
  rewrite bind_eq, (subprocess_run_unchecked _ _ _ r Hr). cbv beta iota zeta.
  unfold stripped_lines. rewrite Hout, (splitlines_unlines _ Hls).
  by rewrite length_map.
Qed.

Lemma get_audio_track_count_lines_witness :
  let out := unlines ["0"; "1"; "  "; "2"] in
  let e := Env (fun _ => Some (Decoded (CompletedProcess 1 out ""))) "/tmp/tmpq" in
  spawn e (count_cmd "in.mp4") = Some (Decoded (CompletedProcess 1 out ""))
  /\ Forall (fun l => one_line l = true) ["0"; "1"; "  "; "2"]
  /\ (get_audio_track_count "in.mp4" e (World ∅ [])).1 = Return 3%nat.
Proof.
  intros out e.
  assert (Hls : Forall (fun l => one_line l = true) ["0"; "1"; "  "; "2"])
    by (repeat constructor).
  split; [reflexivity|]. split; [exact Hls|].
  by rewrite (get_audio_track_count_lines e (World ∅ []) "in.mp4"
                (CompletedProcess 1 out "") _ eq_refl eq_refl Hls).
Defined.

(** *** The duration as ffprobe prints it *)

Lemma lstrip_spaces ws s :
  all_chars is_space ws = true -> lstrip (ws ++ s) = lstrip s.
Proof.
  induction ws as [|c ws IH]; [done|]. cbn [all_chars].
  intros [Hc Hws]%andb_true_iff. rewrite append_cons. cbn [lstrip].
  rewrite Hc. by apply IH.
Qed.

Lemma rstrip_all_spaces ws : all_chars is_space ws = true -> rstrip ws = "".
Proof.
  induction ws as [|c ws IH]; [done|]. cbn [all_chars rstrip].
  intros [Hc Hws]%andb_true_iff. by rewrite (IH Hws), Hc.
Qed.

Lemma rstrip_spaces s ws :
  all_chars is_space ws = true -> rstrip (s ++ ws) = rstrip s.
Proof.
  intros Hws. induction s as [|c s IH].
  - change ("" ++ ws) with ws. by rewrite rstrip_all_spaces.
  - rewrite append_cons. cbn [rstrip]. by rewrite IH.
Qed.

Lemma decimal_text_stamp d1 d2 point :
  all_chars is_digit d1 = true -> all_chars is_digit d2 = true ->
  all_chars stamp_char (decimal_text d1 d2 point) = true.
Proof.
  intros H1 H2. unfold decimal_text.
  rewrite all_chars_app, (all_digits_stamp _ H1).
  destruct point; [|done].
  change ("." ++ d2) with (String "." d2). cbn [all_chars andb].
  rewrite (all_digits_stamp _ H2). reflexivity.
Qed.

Lemma strip_decimal ws1 ws2 d1 d2 point :
  all_chars is_space ws1 = true -> all_chars is_space ws2 = true ->
  all_chars is_digit d1 = true -> is_empty d1 = false ->
  all_chars is_digit d2 = true ->
  strip (ws1 ++ decimal_text d1 d2 point ++ ws2) = decimal_text d1 d2 point.
Proof.
  intros Hw1 Hw2 H1 Hne H2. unfold strip.
  rewrite (lstrip_spaces _ _ Hw1).
  pose proof (decimal_text_stamp d1 d2 point H1 H2) as Hall.
  destruct (decimal_text_head d1 d2 point ws2 H1 Hne) as (c & r & E & Hc).
  assert (Hl : lstrip (decimal_text d1 d2 point ++ ws2)
               = decimal_text d1 d2 point ++ ws2).
  { rewrite E. cbn [lstrip]. by rewrite (digit_not_space c Hc). }
  by rewrite Hl, (rstrip_spaces _ _ Hw2), (rstrip_stamp _ Hall).
Qed.

(** X10.  [get_video_duration] returns the value of the unsigned decimal
    that the probe prints, whatever white space surrounds it (the final line
    feed, a carriage return) and whatever the probe's exit status is. *)
Theorem get_video_duration_decimal e w input_file r ws1 ws2 d1 d2 point :
  spawn e (probe_cmd input_file) = Some (Decoded r) ->
  stdout r = ws1 ++ decimal_text d1 d2 point ++ ws2 ->
  all_chars is_space ws1 = true -> all_chars is_space ws2 = true ->
  all_chars is_digit d1 = true -> is_empty d1 = false ->
  all_chars is_digit d2 = true -> (point = false -> d2 = "") ->
  get_video_duration input_file e w
  = (Return (of_scientific false (Z_of_digits (d1 ++ d2))
               (- Z.of_nat (String.length d2))),
     World (files w) (trace w ++ [Run (probe_cmd input_file)])).
Proof.
  intros Hr Hout Hw1 Hw2 H1 Hne H2 Hp.
  rewrite (get_video_duration_run e w input_file r Hr), Hout.
  rewrite (strip_decimal _ _ _ _ _ Hw1 Hw2 H1 Hne H2).
  unfold decimal_text. by rewrite (py_float_stamp d1 d2 point H1 Hne H2 Hp).
Qed.

Lemma get_video_duration_decimal_witness :
  let crlf := String (ascii_of_nat 13) newline in
  let out := "" ++ decimal_text "30" "023000" true ++ crlf in
  let e := Env (fun _ => Some (Decoded (CompletedProcess 1 out ""))) "/tmp/tmpq" in
  spawn e (probe_cmd "in.mp4") = Some (Decoded (CompletedProcess 1 out ""))
  /\ (get_video_duration "in.mp4" e (World ∅ [])).1
     = Return (of_decimal 30023 3).
Proof.
  intros crlf out e. split; [reflexivity|].
  rewrite (get_video_duration_decimal e (World ∅ []) "in.mp4"
             (CompletedProcess 1 out "") "" crlf "30" "023000" true
             eq_refl eq_refl eq_refl eq_refl eq_refl eq_refl eq_refl);
    [|discriminate].
  vm_compute. reflexivity.
Defined.

End ProbeMore.
